(** * shell_gpt: the chat-session controller of [sgpt/app.py]

    A shallow embedding of [get_completion], [chat_mode], [main] and
    [entry_point].  Every collaborator the module calls (the chat cache, the
    completion client, the prompt builder, the terminal, the host shell) is
    an oracle of an [environment]; every call that can be observed from the
    outside is appended to a history of [event]s, so that statements of the
    form "X happens before Y" or "Y is never called" are statements about
    that history. *)

From Stdlib Require Import String Ascii List Bool Arith Lia QArith ZArith.
Import ListNotations.
Local Close Scope Q_scope.
Local Open Scope nat_scope.
Local Open Scope string_scope.
Local Open Scope list_scope.

(** ** Python values used by the module *)

Module Py.

(** A value that is either [None] or a [str]: the type of [prompt] and of
    [chat] in [main], whose default is [None]. *)
Definition str_or_none := option string.

(** Truth value of such an object: [None] and the empty string are falsy. *)
Definition truthy (v : str_or_none) : bool :=
  match v with
  | None => false
  | Some s => negb (String.eqb s "")
  end.

(** [s.endswith(suffix)]: [s] is [suffix], or the tail of [s] ends with it. *)
Fixpoint endswith (s suffix : string) : bool :=
  String.eqb s suffix ||
  match s with
  | EmptyString => false
  | String _ s' => endswith s' suffix
  end.

(** [needle in s] as a proposition. *)
Definition contains (s needle : string) : Prop :=
  exists before after, s = (before ++ needle ++ after)%string.

(** [''.join(ws)] *)
Definition join (ws : list string) : string :=
  fold_right String.append "" ws.

End Py.

(** The line feed of the literals ["###\nCommand:"] and ["###\nCode:"]. *)
Definition LF : string := String "010"%char EmptyString.

Definition SHELL_SENTINEL : string := ("###" ++ LF ++ "Command:")%string.
Definition CODE_SENTINEL : string := ("###" ++ LF ++ "Code:")%string.

(** ** Data *)

(** Sampling parameters are decimal numbers that the module only forwards. *)
Definition float := Q.

(** [{"role": ..., "content": ...}] *)
Record message := { role : string; content : string }.

(** The keyword arguments of [client.get_completion]. *)
Record request := {
  messages : list message;
  model : string;
  temperature : float;
  top_probability : float;
  caching : bool;
  chat_id : Py.str_or_none
}.

(** What [rich_print] is given: markup text or a horizontal [Rule]. *)
Inductive renderable :=
| Markup (text : string)
| Rule (title style : string).

(** Exceptions: the two click errors that the module raises itself, and the
    interpreter's [IndexError] of a subscript out of range. *)
Inductive exn :=
| BadParameter (msg : string)
| MissingParameter (param_hint param_type : string)
| IndexError.

(** Calls that leave the module, in the order they are made.  Calls that
    read from the user carry the answer. *)
Inductive event :=
| ChatCacheExists (chat_id : string)
| ChatCacheGetMessages (chat_id : string)
| EchoChatMessages (chat_id : string) (shell code : bool)
| EchoChatIds
| RichPrint (r : renderable) (end_ : string)
| Echo (message : Py.str_or_none)
| Secho (message : Py.str_or_none) (fg : Py.str_or_none) (bold nl : bool)
| Prompt (text : string) (err : bool) (answer : string)
| Confirm (text : string) (answer : bool)
| GetEditedPrompt (answer : string)
| ClientGetCompletion (api_host api_key : string) (r : request)
| OsSystem (command : string).

Definition history := list event.

Definition is_prompt (e : event) : bool :=
  match e with Prompt _ _ _ => true | _ => false end.

(** The fragments written with [typer.secho(word, ..., nl=False)], oldest first. *)
Fixpoint written (h : history) : list string :=
  match h with
  | [] => []
  | Secho (Some w) _ _ false :: h' => w :: written h'
  | _ :: h' => written h'
  end.

(** The commands handed to [os.system], oldest first. *)
Fixpoint executed (h : history) : list string :=
  match h with
  | [] => []
  | OsSystem c :: h' => c :: executed h'
  | _ :: h' => executed h'
  end.

(** The requests sent to the completion client, oldest first. *)
Fixpoint requested (h : history) : list request :=
  match h with
  | [] => []
  | ClientGetCompletion _ _ r :: h' => r :: requested h'
  | _ :: h' => requested h'
  end.

(** The answers given to [typer.confirm], oldest first. *)
Fixpoint confirmations (h : history) : list bool :=
  match h with
  | [] => []
  | Confirm _ a :: h' => a :: confirmations h'
  | _ :: h' => confirmations h'
  end.

(** Calls to [OpenAIClient.chat_cache]. *)
Definition is_chat_cache (e : event) : bool :=
  match e with
  | ChatCacheExists _ | ChatCacheGetMessages _ => true
  | _ => false
  end.

(** Calls to the completion client. *)
Definition is_completion (e : event) : bool :=
  match e with ClientGetCompletion _ _ _ => true | _ => false end.

(** The word that makes a shell chat run the response (line 108). *)
Definition is_execute (answer : string) : bool :=
  String.eqb answer "execute" || String.eqb answer "e".

(** An answer [execute] or [e] to the prompt of line 105, [typer.prompt("")]. *)
Definition is_execute_choice (e : event) : bool :=
  match e with
  | Prompt text err answer => String.eqb text "" && negb err && is_execute answer
  | _ => false
  end.

(** The collaborators.  Those that read the outside world answer as a
    function of everything that happened so far; the prompt builder and the
    configuration lookup are pure. *)
Record environment := {
  stored : history -> string -> bool;
  stored_messages : history -> string -> list string;
  config_get : string -> string;
  fragments : history -> string -> string -> request -> list string;
  make_prompt_initial : Py.str_or_none -> bool -> bool -> string;
  make_prompt_chat_mode : Py.str_or_none -> bool -> bool -> string;
  edited : history -> string;
  typed : history -> string -> bool -> string;
  confirmed : history -> string -> bool
}.

(** ** Control: state, exceptions and the unbounded loop *)

(** How a computation ends: with a value, with an exception, or not within
    the iterations it was given ([Looping]). *)
Inductive outcome (A : Type) :=
| Returned (a : A)
| Raised (e : exn)
| Looping.
Arguments Returned {A} a.
Arguments Raised {A} e.
Arguments Looping {A}.

Definition M (A : Type) : Type := history -> outcome A * history.

Definition ret {A} (a : A) : M A := fun h => (Returned a, h).

Definition bind {A B} (c : M A) (k : A -> M B) : M B :=
  fun h =>
    match c h with
    | (Returned a, h') => k a h'
    | (Raised e, h') => (Raised e, h')
    | (Looping, h') => (Looping, h')
    end.

Definition raise {A} (e : exn) : M A := fun h => (Raised e, h).

(** Performs a call: computes its answer from the history and records it. *)
Definition call {A} (answer : history -> A) (ev : A -> event) : M A :=
  fun h => let a := answer h in (Returned a, h ++ [ev a]).

Declare Scope py_scope.
Delimit Scope py_scope with py.
Notation "x <- c1 ;; c2" := (bind c1 (fun x => c2))
  (at level 61, c1 at next level, right associativity) : py_scope.
Notation "c1 ;; c2" := (bind c1 (fun _ => c2))
  (at level 61, right associativity) : py_scope.
Local Open Scope py_scope.

(** What the body of a loop asks for when it ends. *)
Inductive control (S : Type) :=
| Continue (s : S)
| Break.
Arguments Continue {S} s.
Arguments Break {S}.

(** [while True: body], the loop variables being [s]; [fuel] bounds the
    iterations that are run. *)
Fixpoint while_true {S} (fuel : nat) (body : S -> M (control S)) (s : S) : M unit :=
  match fuel with
  | O => fun h => (Looping, h)
  | Datatypes.S fuel' =>
      c <- body s ;;
      match c with
      | Continue s' => while_true fuel' body s'
      | Break => ret tt
      end
  end.

(** [for x in xs: body], the loop variables being [s]. *)
Fixpoint for_in {A S} (xs : list A) (body : A -> S -> M S) (s : S) : M S :=
  match xs with
  | [] => ret s
  | x :: xs' => s' <- body x s ;; for_in xs' body s'
  end.

(** [l[0]] *)
Definition subscript0 {A} (l : list A) : M A :=
  match l with
  | [] => raise IndexError
  | x :: _ => ret x
  end.

(** ** The module *)

Section App.

Variable env : environment.

(** *** Collaborator calls *)

(** [OpenAIClient.chat_cache.exists(chat_id)] *)
Definition chat_cache_exists (chat_id : string) : M bool :=
  call (fun h => stored env h chat_id) (fun _ => ChatCacheExists chat_id).

(** [OpenAIClient.chat_cache.get_messages(chat_id)] *)
Definition chat_cache_get_messages (chat_id : string) : M (list string) :=
  call (fun h => stored_messages env h chat_id) (fun _ => ChatCacheGetMessages chat_id).

(** [OpenAIClient(api_host, api_key).get_completion(...)] *)
Definition client_get_completion (api_host api_key : string) (r : request)
  : M (list string) :=
  call (fun h => fragments env h api_host api_key r)
       (fun _ => ClientGetCompletion api_host api_key r).

Definition echo_chat_messages (chat_id : string) (shell code : bool) : M unit :=
  call (fun _ => tt) (fun _ => EchoChatMessages chat_id shell code).

Definition echo_chat_ids : M unit :=
  call (fun _ => tt) (fun _ => EchoChatIds).

Definition get_edited_prompt : M string :=
  call (edited env) GetEditedPrompt.

Definition rich_print (r : renderable) (end_ : string) : M unit :=
  call (fun _ => tt) (fun _ => RichPrint r end_).

Definition typer_echo (message : Py.str_or_none) : M unit :=
  call (fun _ => tt) (fun _ => Echo message).

Definition typer_secho (message fg : Py.str_or_none) (bold nl : bool) : M unit :=
  call (fun _ => tt) (fun _ => Secho message fg bold nl).

Definition typer_prompt (text : string) (err : bool) : M string :=
  call (fun h => typed env h text err) (Prompt text err).

Definition typer_confirm (text : string) : M bool :=
  call (fun h => confirmed env h text) (Confirm text).

Definition os_system (command : string) : M unit :=
  call (fun _ => tt) (fun _ => OsSystem command).

(** *** [get_completion] (lines 31-48) *)

Definition get_completion (messages : list message) (temperature top_p : float)
    (caching : bool) (chat : Py.str_or_none) : M (list string) :=
  let api_host := config_get env "OPENAI_API_HOST" in
  let api_key := config_get env "OPENAI_API_KEY" in
  client_get_completion api_host api_key
    {| messages := messages;
       model := "gpt-3.5-turbo";
       temperature := temperature;
       top_probability := top_p;
       caching := caching;
       chat_id := chat |}.

(** *** [chat_mode] (lines 51-116) *)

(** One pass through the body of [while True:] (lines 90-116).  The loop
    variable is [prompt]; the body has no [break] and no [return]. *)
Definition chat_mode_turn (temperature top_p : float) (chat_id : string)
    (shell code cache : bool) (prompt : string) : M (control string) :=
  completion <- get_completion [{| role := "user"; content := prompt |}]
                  temperature top_p cache (Some chat_id) ;;
  full_completion <-
    for_in completion
      (fun word full_completion =>
         typer_secho (Some word) (Some "magenta") true false ;;
         ret (full_completion ++ word)%string)
      "" ;;
  typer_secho None None false true ;;
  let prompt_text :=
    if shell then "Revise or [bold magenta][E][/bold magenta]xecute" else "Prompt" in
  rich_print (Markup prompt_text) "" ;;
  prompt <- typer_prompt "" false ;;
  prompt <-
    (if shell then
       if String.eqb prompt "execute" || String.eqb prompt "e" then
         typer_echo None ;;
         os_system full_completion ;;
         typer_echo None ;;
         rich_print (Rule "" "bold magenta") LF ;;
         typer_prompt "Enter your prompt" true
       else ret prompt
     else ret prompt) ;;
  ret (Continue (make_prompt_chat_mode env (Some prompt) shell code)).

(** Lines 81-116: what [chat_mode] does once [exists], [shell] and [code]
    have their final values. *)
Definition chat_mode_session (fuel : nat) (prompt : Py.str_or_none)
    (temperature top_p : float) (chat_id : string)
    (exists_ shell code cache : bool) : M unit :=
  prompt <-
    (if negb (Py.truthy prompt) then
       answer <- typer_prompt "Enter your prompt" true ;; ret (Some answer)
     else typer_echo prompt ;; ret prompt) ;;
  let prompt :=
    if exists_ then make_prompt_chat_mode env prompt shell code
    else make_prompt_initial env prompt shell code in
  while_true fuel (chat_mode_turn temperature top_p chat_id shell code cache) prompt.

(** Lines 63-79: the history of an existing chat is shown and decides the
    flags; the result is the pair assigned to [shell, code]. *)
Definition chat_mode_resume (chat_id : string) (shell code : bool) : M (bool * bool) :=
  chat_history <- chat_cache_get_messages chat_id ;;
  rich_print (Rule "Chat History" "bold magenta") LF ;;
  echo_chat_messages chat_id shell code ;;
  rich_print (Rule "" "bold magenta") LF ;;
  typer_echo None ;;
  first <- subscript0 chat_history ;;
  let is_shell_chat := Py.endswith first SHELL_SENTINEL in
  first <- subscript0 chat_history ;;
  let is_code_chat := Py.endswith first CODE_SENTINEL in
  if is_shell_chat && code then
    raise (BadParameter
      ("Chat id:" ++ chat_id
       ++ " was initiated as shell assistant, can be used with --shell only")%string)
  else if is_code_chat && shell then
    raise (BadParameter
      ("Chat id:" ++ chat_id
       ++ " was initiated as code assistant, can be used with --code only")%string)
  else ret (is_shell_chat, is_code_chat).

Definition chat_mode (fuel : nat) (prompt : Py.str_or_none)
    (temperature top_p : float) (chat_id : string)
    (shell code cache : bool) : M unit :=
  exists_ <- chat_cache_exists chat_id ;;
  flags <- (if exists_ then chat_mode_resume chat_id shell code
            else ret (shell, code)) ;;
  chat_mode_session fuel prompt temperature top_p chat_id
    exists_ (fst flags) (snd flags) cache.

(** *** [main] (lines 119-159) *)

Definition main (fuel : nat) (prompt : Py.str_or_none)
    (temperature top_probability : float) (chat : Py.str_or_none)
    (list_chat shell code editor cache : bool) : M unit :=
  if list_chat then echo_chat_ids
  else
    prompt <- (if editor then p <- get_edited_prompt ;; ret (Some p)
               else ret prompt) ;;
    (match chat with
     | Some id =>
         if Py.truthy chat then
           chat_mode fuel prompt temperature top_probability id shell code cache
         else ret tt
     | None => ret tt
     end) ;;
    if negb (Py.truthy prompt) && negb editor then
      raise (MissingParameter "PROMPT" "string")
    else
      let prompt := make_prompt_initial env prompt shell code in
      completion <- get_completion [{| role := "user"; content := prompt |}]
                      temperature top_probability cache chat ;;
      full_completion <-
        for_in completion
          (fun word full_completion =>
             typer_secho (Some word) (Some "magenta") true false ;;
             ret (full_completion ++ word)%string)
          "" ;;
      typer_secho None None false true ;;
      execute <- (if negb code && shell then typer_confirm "Execute shell command?"
                  else ret false) ;;
      if execute then os_system full_completion else ret tt.

(** *** [entry_point] (lines 162-164) *)

(** The status [typer.run] leaves the process with: a click usage error
    ([BadParameter], [MissingParameter]) is printed and exits with its
    [exit_code], 2; any other exception reaches the interpreter, which
    prints the traceback and exits with 1; a return exits with 0.  There
    is no status while the program is still running. *)
Definition exit_status (o : outcome unit) : option Z :=
  match o with
  | Returned _ => Some 0%Z
  | Raised (BadParameter _) => Some 2%Z
  | Raised (MissingParameter _ _) => Some 2%Z
  | Raised IndexError => Some 1%Z
  | Looping => None
  end.

Definition entry_point (fuel : nat) (prompt : Py.str_or_none)
    (temperature top_probability : float) (chat : Py.str_or_none)
    (list_chat shell code editor cache : bool) (h : history)
  : option Z * history :=
  let (o, h') := main fuel prompt temperature top_probability chat
                   list_chat shell code editor cache h in
  (exit_status o, h').

End App.

(** ** The session store

    [app.py] hands the chat id to the completion client and never writes to
    the store itself; the store and the moment its turns are written are
    taken from the specification. *)

Module Store.

(** Modelled from the spec: the Session Store of section 4.1, which is not
    under src/.  A store holds the turns persisted so far, oldest first, each
    under the id of its session. *)
Definition t := list (string * message).

(** Modelled from the spec: the turns [get_messages] returns for a session
    of the store (section 4.1), all of them, oldest first. *)
Definition turns (st : t) (id : string) : list message :=
  map snd (filter (fun entry => String.eqb (fst entry) id) st).

(** Modelled from the spec: [exists] of the store (section 4.1), true iff at
    least one turn has been persisted under this id. *)
Definition exists_ (st : t) (id : string) : bool :=
  match turns st id with
  | [] => false
  | _ :: _ => true
  end.


(** Modelled from the spec: [append] of the store (section 4.1), which always
    appends after the current last turn and creates the session on first
    use. *)
Definition append (st : t) (id role content : string) : t :=
  st ++ [(id, {| role := role; content := content |})].

End Store.







(** ** What a run is expected to leave in the history

    The histories below name the stages of one request/response cycle; the
    theorems equate the runs of the code with them. *)

(** The exceptions the module raises itself, with a [raise] statement that
    follows a check (lines 71, 75 and 141); [IndexError] is raised by the
    interpreter. *)
Definition raised_by_check (e : exn) : bool :=
  match e with
  | BadParameter _ | MissingParameter _ _ => true
  | IndexError => false
  end.

(** One fragment on the terminal. *)
Definition secho_word (w : string) : event :=
  Secho (Some w) (Some "magenta") true false.

Section Observations.

Variable env : environment.

(** The request [get_completion] builds for a single user message. *)
Definition user_request (prompt : string) (temperature top_p : float)
    (cache : bool) (chat : Py.str_or_none) : request :=
  {| messages := [{| role := "user"; content := prompt |}];
     model := "gpt-3.5-turbo";
     temperature := temperature;
     top_probability := top_p;
     caching := cache;
     chat_id := chat |}.

Definition sent (r : request) : event :=
  ClientGetCompletion (config_get env "OPENAI_API_HOST")
                      (config_get env "OPENAI_API_KEY") r.

(** The fragments the client yields for [r] when asked after [h]. *)
Definition reply (h : history) (r : request) : list string :=
  fragments env h (config_get env "OPENAI_API_HOST")
                  (config_get env "OPENAI_API_KEY") r.

(** After the response to [r] has been streamed. *)
Definition answered (h : history) (r : request) : history :=
  h ++ sent r :: map secho_word (reply h r) ++ [Secho None None false true].

Definition choice_text (shell : bool) : string :=
  if shell then "Revise or [bold magenta][E][/bold magenta]xecute" else "Prompt".

(** After the choice has been offered, and what the user types then. *)
Definition asked (h : history) (r : request) (shell : bool) : history :=
  answered h r ++ [RichPrint (Markup (choice_text shell)) ""].

Definition choice (h : history) (r : request) (shell : bool) : string :=
  typed env (asked h r shell) "" false.

Definition chosen (h : history) (r : request) (shell : bool) : history :=
  asked h r shell ++ [Prompt "" false (choice h r shell)].

(** After the response has been run as a command, and the prompt that is
    read next. *)
Definition ran (h : history) (r : request) : history :=
  chosen h r true ++
  [Echo None; OsSystem (Py.join (reply h r)); Echo None;
   RichPrint (Rule "" "bold magenta") LF].

Definition fresh_prompt (h : history) (r : request) : string :=
  typed env (ran h r) "Enter your prompt" true.

Definition reprompted (h : history) (r : request) : history :=
  ran h r ++ [Prompt "Enter your prompt" true (fresh_prompt h r)].

(** After the stored history of chat [id] has been read and shown. *)
Definition resumed (id : string) (shell code : bool) (h : history) : history :=
  h ++ [ChatCacheExists id; ChatCacheGetMessages id;
        RichPrint (Rule "Chat History" "bold magenta") LF;
        EchoChatMessages id shell code;
        RichPrint (Rule "" "bold magenta") LF;
        Echo None].

(** The prompt of a single-shot run once the editor had its turn. *)
Definition edited_prompt (editor : bool) (prompt : Py.str_or_none) (h : history)
  : Py.str_or_none :=
  if editor then Some (edited env h) else prompt.

Definition after_editor (editor : bool) (h : history) : history :=
  if editor then h ++ [GetEditedPrompt (edited env h)] else h.

(** The history a single-shot run ends with. *)
Definition single_shot (r : request) (shell code editor : bool) (h : history) : history :=
  let h0 := after_editor editor h in
  let h1 := answered h0 r in
  if negb code && shell then
    let yes := confirmed env h1 "Execute shell command?" in
    h1 ++ Confirm "Execute shell command?" yes ::
          (if yes then [OsSystem (Py.join (reply h0 r))] else [])
  else h1.

End Observations.

(** ** Concrete collaborators

    A chat cache that answers [exists_] and [past] for every id, a client
    that always yields [frags], a user who types [lines] one after the other
    and answers [yes] to confirmations, an editor that returns [edit], and a
    prompt builder that appends the sentinel of the mode. *)

Definition framing (prompt : Py.str_or_none) (shell code : bool) : string :=
  ((match prompt with Some s => s | None => "None" end) ++
   (if shell then SHELL_SENTINEL else if code then CODE_SENTINEL else ""))%string.

Definition scripted (exists_ : bool) (past frags lines : list string)
    (yes : bool) (edit : string) : environment :=
  {| stored := fun _ _ => exists_;
     stored_messages := fun _ _ => past;
     config_get := fun key => key;
     fragments := fun _ _ _ _ => frags;
     make_prompt_initial := framing;
     make_prompt_chat_mode := framing;
     edited := fun _ => edit;
     typed := fun h _ _ => nth (List.length (filter is_prompt h)) lines "";
     confirmed := fun _ _ => yes |}.

(** The defaults of the options [--temperature] and [--top-probability]. *)
Definition T : float := 1%Q.
Definition P : float := 1%Q.

(** A chat started with [--code], one started with [--shell], a plain one,
    a chat the cache knows but has no message for, and a cache without the
    chat.  The client answers [ls -l] in two fragments; the user types [e],
    then [count the files], then [wc]. *)
Definition lines : list string := ["e"; "count the files"; "wc"].

Definition code_chat : environment :=
  scripted true [framing (Some "sort a list") false true] ["ls"; " -l"] lines true "".

Definition shell_chat : environment :=
  scripted true [framing (Some "list files") true false] ["ls"; " -l"] lines true "".

Definition plain_chat : environment :=
  scripted true ["hello"] ["ls"; " -l"] lines true "".

Definition empty_chat : environment :=
  scripted true [] ["ls"; " -l"] lines true "".

Definition no_chat (yes : bool) : environment :=
  scripted false [] ["ls"; " -l"] lines yes "".

(** ** Strings *)

Lemma append_nil_r (s : string) : (s ++ "")%string = s.
Proof. induction s as [|c s IH]; simpl; [reflexivity | now rewrite IH]. Qed.

Lemma append_assoc (a b c : string) :
  (a ++ (b ++ c))%string = ((a ++ b) ++ c)%string.
Proof. induction a as [|x a IH]; simpl; [reflexivity | now rewrite IH]. Qed.

Lemma endswith_nil suffix : Py.endswith "" suffix = String.eqb "" suffix.
Proof. cbn [Py.endswith]. apply orb_false_r. Qed.

Lemma endswith_cons c s suffix :
  Py.endswith (String c s) suffix
  = String.eqb (String c s) suffix || Py.endswith s suffix.
Proof. reflexivity. Qed.

(** [endswith] is the usual notion: some string followed by the suffix. *)
Lemma endswith_iff s suffix :
  Py.endswith s suffix = true <-> exists before, s = (before ++ suffix)%string.
Proof.
  induction s as [|c s IH].
  - rewrite endswith_nil, String.eqb_eq. split.
    + intros E. exists ""%string. now subst.
    + intros [b E]. destruct b; simpl in E; [now subst | discriminate].
  - rewrite endswith_cons, orb_true_iff, IH, String.eqb_eq. split.
    + intros [E | [b E]].
      * exists ""%string. now rewrite <- E.
      * exists (String c b). simpl. now rewrite E.
    + intros [b E]. destruct b as [|c' b]; simpl in E.
      * left. now rewrite <- E.
      * right. exists b. now inversion E.
Qed.

(** No string ends with both sentinels. *)
Lemma sentinels_exclusive s :
  Py.endswith s SHELL_SENTINEL = true -> Py.endswith s CODE_SENTINEL = false.
Proof.
  induction s as [|c s IH].
  - rewrite endswith_nil. discriminate.
  - rewrite !endswith_cons. intros H. apply orb_true_iff in H. destruct H as [H | H].
    + apply String.eqb_eq in H. cbv in H. injection H as -> ->. reflexivity.
    + rewrite (IH H), orb_false_r.
      destruct (String.eqb_spec (String c s) CODE_SENTINEL) as [E | E]; [| reflexivity].
      cbv in E. injection E as -> ->. discriminate H.
Qed.

Lemma sentinels_not_both s :
  Py.endswith s SHELL_SENTINEL && Py.endswith s CODE_SENTINEL = false.
Proof.
  destruct (Py.endswith s SHELL_SENTINEL) eqn:E; [| reflexivity].
  now rewrite (sentinels_exclusive s E).
Qed.

Lemma contains_middle (a b c : string) : Py.contains (a ++ b ++ c) b.
Proof. now exists a, c. Qed.

(** ** Reading a history *)

Lemma written_app h1 h2 : written (h1 ++ h2) = written h1 ++ written h2.
Proof.
  induction h1 as [|e h1 IH]; [reflexivity |].
  destruct e as [| | | | | |[w|] fg bold [|] | | | | |]; cbn; now rewrite IH.
Qed.

Lemma executed_app h1 h2 : executed (h1 ++ h2) = executed h1 ++ executed h2.
Proof. induction h1 as [|e h1 IH]; [reflexivity |]. destruct e; cbn; now rewrite IH. Qed.

Lemma requested_app h1 h2 : requested (h1 ++ h2) = requested h1 ++ requested h2.
Proof. induction h1 as [|e h1 IH]; [reflexivity |]. destruct e; cbn; now rewrite IH. Qed.

Lemma confirmations_app h1 h2 :
  confirmations (h1 ++ h2) = confirmations h1 ++ confirmations h2.
Proof. induction h1 as [|e h1 IH]; [reflexivity |]. destruct e; cbn; now rewrite IH. Qed.

Lemma written_words ws : written (map secho_word ws) = ws.
Proof. induction ws as [|w ws IH]; cbn; [reflexivity | now rewrite IH]. Qed.

Lemma executed_words ws : executed (map secho_word ws) = [].
Proof. induction ws as [|w ws IH]; cbn; [reflexivity | exact IH]. Qed.

Lemma requested_words ws : requested (map secho_word ws) = [].
Proof. induction ws as [|w ws IH]; cbn; [reflexivity | exact IH]. Qed.

Lemma confirmations_words ws : confirmations (map secho_word ws) = [].
Proof. induction ws as [|w ws IH]; cbn; [reflexivity | exact IH]. Qed.

(** Histories are compared with their appends nested to the right. *)
Ltac hnorm := repeat (first [rewrite <- app_assoc | progress cbn [app]]).
Ltac hnorm_in H :=
  repeat (first [rewrite <- app_assoc in H | progress cbn [app] in H]).

(** Reads one of the lists above off a history given stage by stage. *)
Ltac observe :=
  repeat (first
    [ rewrite written_app | rewrite executed_app
    | rewrite requested_app | rewrite confirmations_app
    | rewrite written_words | rewrite executed_words
    | rewrite requested_words | rewrite confirmations_words
    | progress cbn [written executed requested confirmations app secho_word]
    | rewrite app_nil_r ]).

(** ** The streaming loop and one chat turn *)

Section Runs.

Variable env : environment.

Lemma for_in_stream (frags : list string) (acc : string) (h : history) :
  for_in frags
    (fun word full_completion =>
       typer_secho (Some word) (Some "magenta") true false ;;
       ret (full_completion ++ word)%string) acc h
  = (Returned (acc ++ Py.join frags)%string, h ++ map secho_word frags).
Proof.
  revert acc h. induction frags as [|w ws IH]; intros acc h.
  - cbn. now rewrite append_nil_r, app_nil_r.
  - cbn [for_in]. unfold bind at 1. cbn. rewrite IH. cbn.
    now rewrite append_assoc, <- app_assoc.
Qed.

Lemma get_completion_run prompt t p cache chat h :
  get_completion env [{| role := "user"; content := prompt |}] t p cache chat h
  = (Returned (reply env h (user_request prompt t p cache chat)),
     h ++ [sent env (user_request prompt t p cache chat)]).
Proof. reflexivity. Qed.

(** In shell mode, the answer [execute] or [e] runs the response and reads
    a new prompt. *)
Lemma turn_execute t p id code cache prompt h :
  let r := user_request prompt t p cache (Some id) in
  String.eqb (choice env h r true) "execute"
  || String.eqb (choice env h r true) "e" = true ->
  chat_mode_turn env t p id true code cache prompt h
  = (Returned (Continue
       (make_prompt_chat_mode env (Some (fresh_prompt env h r)) true code)),
     reprompted env h r).
Proof.
  intros r E. subst r.
  unfold reprompted, fresh_prompt, ran, chosen, choice, asked, answered, choice_text in *.
  unfold chat_mode_turn.
  unfold bind at 1. rewrite get_completion_run.
  unfold bind at 1. rewrite for_in_stream.
  unfold bind at 1. cbn [typer_secho call].
  unfold bind at 1. cbn [rich_print call].
  unfold bind at 1. cbn [typer_prompt call].
  cbn [String.append]. hnorm. hnorm_in E. rewrite E.
  cbn. hnorm. reflexivity.
Qed.

(** In every other case the answer itself is the next prompt. *)
Lemma turn_keep t p id shell code cache prompt h :
  let r := user_request prompt t p cache (Some id) in
  shell && (String.eqb (choice env h r shell) "execute"
            || String.eqb (choice env h r shell) "e") = false ->
  chat_mode_turn env t p id shell code cache prompt h
  = (Returned (Continue
       (make_prompt_chat_mode env (Some (choice env h r shell)) shell code)),
     chosen env h r shell).
Proof.
  intros r E. subst r.
  unfold chosen, choice, asked, answered, choice_text in *.
  unfold chat_mode_turn.
  unfold bind at 1. rewrite get_completion_run.
  unfold bind at 1. rewrite for_in_stream.
  unfold bind at 1. cbn [typer_secho call].
  unfold bind at 1. cbn [rich_print call].
  unfold bind at 1. cbn [typer_prompt call].
  cbn [String.append]. hnorm. hnorm_in E.
  destruct shell.
  - cbn [andb] in E. rewrite E. cbn. hnorm. reflexivity.
  - cbn. hnorm. reflexivity.
Qed.

Lemma while_true_continue {S} n (body : S -> M (control S)) s s' h h' :
  body s h = (Returned (Continue s'), h') ->
  while_true (Datatypes.S n) body s h = while_true n body s' h'.
Proof. intros H. cbn [while_true]. unfold bind. now rewrite H. Qed.

(** Whatever is typed, a turn asks for another one; it sends exactly one
    request, writes the fragments of its reply, and runs at most the reply. *)
Lemma turn_continues t p id shell code cache prompt h :
  let r := user_request prompt t p cache (Some id) in
  exists text more,
    chat_mode_turn env t p id shell code cache prompt h
    = (Returned (Continue (make_prompt_chat_mode env (Some text) shell code)),
       h ++ more)
    /\ requested more = [r]
    /\ written more = reply env h r
    /\ (executed more = [] \/ executed more = [Py.join (reply env h r)]).
Proof.
  intros r.
  destruct (shell && (String.eqb (choice env h r shell) "execute"
                      || String.eqb (choice env h r shell) "e")) eqn:E.
  - apply andb_true_iff in E. destruct E as [-> E].
    exists (fresh_prompt env h r). eexists. split.
    + rewrite (turn_execute t p id code cache prompt h E).
      unfold reprompted, ran, chosen, asked, answered. hnorm. reflexivity.
    + repeat split; [observe; reflexivity | observe; reflexivity |].
      right. observe. reflexivity.
  - exists (choice env h r shell). eexists. split.
    + rewrite (turn_keep t p id shell code cache prompt h E).
      unfold chosen, asked, answered. hnorm. reflexivity.
    + repeat split; [observe; reflexivity | observe; reflexivity |].
      left. observe. reflexivity.
Qed.

(** The loop never leaves: after [n] iterations it is still running and has
    sent [n] requests, the first for the prompt it was entered with and the
    others for prompts framed by [make_prompt.chat_mode] with the same flags. *)
Lemma loop_run t p id shell code cache n :
  forall prompt h,
  exists more,
    while_true n (chat_mode_turn env t p id shell code cache) prompt h
    = (Looping, h ++ more)
    /\ List.length (requested more) = n
    /\ match requested more with
       | [] => True
       | r :: rest =>
           r = user_request prompt t p cache (Some id)
           /\ Forall (fun r' => exists text,
                        r' = user_request (make_prompt_chat_mode env text shell code)
                               t p cache (Some id)) rest
       end.
Proof.
  induction n as [|n IH]; intros prompt h.
  - exists []. cbn. rewrite app_nil_r. auto.
  - destruct (turn_continues t p id shell code cache prompt h)
      as (text & m1 & Hrun & Hreq & _ & _).
    destruct (IH (make_prompt_chat_mode env (Some text) shell code) (h ++ m1))
      as (m2 & Hloop & Hlen & Hrest).
    exists (m1 ++ m2). rewrite (while_true_continue _ _ _ _ _ _ Hrun), Hloop.
    rewrite app_assoc, requested_app, Hreq. cbn [app List.length].
    repeat split; [now rewrite Hlen |].
    destruct (requested m2) as [|r2 rest2]; [constructor |].
    destruct Hrest as [-> Hrest]. constructor; [now exists (Some text) | exact Hrest].
Qed.

(** *** Resuming a chat *)

Lemma resume_run id shell code h :
  chat_mode_resume env id shell code (h ++ [ChatCacheExists id])
  = match stored_messages env (h ++ [ChatCacheExists id]) id with
    | [] => (Raised IndexError, resumed id shell code h)
    | first :: _ =>
        if Py.endswith first SHELL_SENTINEL && code then
          (Raised (BadParameter
             ("Chat id:" ++ id
              ++ " was initiated as shell assistant, can be used with --shell only")%string),
           resumed id shell code h)
        else if Py.endswith first CODE_SENTINEL && shell then
          (Raised (BadParameter
             ("Chat id:" ++ id
              ++ " was initiated as code assistant, can be used with --code only")%string),
           resumed id shell code h)
        else
          (Returned (Py.endswith first SHELL_SENTINEL, Py.endswith first CODE_SENTINEL),
           resumed id shell code h)
    end.
Proof.
  unfold chat_mode_resume, resumed.
  unfold bind at 1. cbn [chat_cache_get_messages call].
  destruct (stored_messages env (h ++ [ChatCacheExists id]) id) as [|first rest];
    unfold bind, rich_print, echo_chat_messages, typer_echo, call, subscript0, ret, raise;
    cbn beta iota zeta.
  - hnorm. reflexivity.
  - destruct (Py.endswith first SHELL_SENTINEL && code); [hnorm; reflexivity |].
    destruct (Py.endswith first CODE_SENTINEL && shell); hnorm; reflexivity.
Qed.

Lemma chat_mode_run fuel prompt t p id shell code cache h :
  chat_mode env fuel prompt t p id shell code cache h
  = if stored env h id then
      match chat_mode_resume env id shell code (h ++ [ChatCacheExists id]) with
      | (Returned flags, h') =>
          chat_mode_session env fuel prompt t p id true (fst flags) (snd flags) cache h'
      | (Raised e, h') => (Raised e, h')
      | (Looping, h') => (Looping, h')
      end
    else chat_mode_session env fuel prompt t p id false shell code cache
           (h ++ [ChatCacheExists id]).
Proof.
  unfold chat_mode. unfold bind at 1. cbn [chat_cache_exists call].
  destruct (stored env h id); [| reflexivity].
  unfold bind at 1.
  destruct (chat_mode_resume env id shell code (h ++ [ChatCacheExists id]))
    as [[flags | e |] h']; reflexivity.
Qed.

(** The session reads or echoes its prompt, frames it, and enters the loop. *)
Lemma session_run fuel prompt t p id exists_ shell code cache h :
  exists first more,
    chat_mode_session env fuel prompt t p id exists_ shell code cache h
    = while_true fuel (chat_mode_turn env t p id shell code cache) first (h ++ more)
    /\ requested more = []
    /\ exists text,
         first = if exists_ then make_prompt_chat_mode env text shell code
                 else make_prompt_initial env text shell code.
Proof.
  unfold chat_mode_session. destruct (Py.truthy prompt).
  - eexists. exists [Echo prompt]. split; [reflexivity |].
    split; [reflexivity | now exists prompt].
  - eexists. eexists. split; [reflexivity |].
    split; [reflexivity | eexists; reflexivity].
Qed.

(** *** The single-shot path *)

Lemma main_list_chat fuel prompt t p chat shell code editor cache h :
  main env fuel prompt t p chat true shell code editor cache h
  = (Returned tt, h ++ [EchoChatIds]).
Proof. reflexivity. Qed.

Lemma main_missing fuel prompt t p chat shell code editor cache h :
  Py.truthy chat = false ->
  negb (Py.truthy (edited_prompt env editor prompt h)) && negb editor = true ->
  main env fuel prompt t p chat false shell code editor cache h
  = (Raised (MissingParameter "PROMPT" "string"), after_editor env editor h).
Proof.
  intros Hchat Hmiss. unfold main, edited_prompt, after_editor in *.
  destruct editor.
  - now rewrite andb_false_r in Hmiss.
  - unfold bind at 1. cbn [ret]. unfold bind at 1.
    destruct chat as [c|]; [rewrite Hchat |]; cbn [ret]; now rewrite Hmiss.
Qed.

Lemma main_single_shot fuel prompt t p chat shell code editor cache h :
  Py.truthy chat = false ->
  negb (Py.truthy (edited_prompt env editor prompt h)) && negb editor = false ->
  main env fuel prompt t p chat false shell code editor cache h
  = (Returned tt,
     single_shot env
       (user_request
          (make_prompt_initial env (edited_prompt env editor prompt h) shell code)
          t p cache chat)
       shell code editor h).
Proof.
  intros Hchat Hgiven. unfold main.
  unfold bind at 1.
  assert (Hed :
    (if editor then p0 <- get_edited_prompt env ;; ret (Some p0) else ret prompt) h
    = (Returned (edited_prompt env editor prompt h), after_editor env editor h)).
  { unfold edited_prompt, after_editor. destruct editor; reflexivity. }
  rewrite Hed. clear Hed.
  unfold bind at 1.
  assert (Hskip :
    match chat with
    | Some id0 =>
        if Py.truthy chat then
          chat_mode env fuel (edited_prompt env editor prompt h) t p id0 shell code cache
        else ret tt
    | None => ret tt
    end (after_editor env editor h) = (Returned tt, after_editor env editor h)).
  { destruct chat as [c|]; [rewrite Hchat |]; reflexivity. }
  rewrite Hskip. clear Hskip. rewrite Hgiven.
  unfold bind at 1. rewrite get_completion_run.
  unfold bind at 1. rewrite for_in_stream.
  unfold bind at 1. cbn [typer_secho call].
  unfold single_shot, answered.
  destruct (negb code && shell).
  - unfold bind at 1. cbn [typer_confirm call]. cbn [String.append]. hnorm.
    destruct (confirmed env _ _); unfold os_system, call, ret; cbn beta iota zeta;
      hnorm; reflexivity.
  - unfold bind, ret. cbn beta iota zeta. hnorm. reflexivity.
Qed.

(** What a single-shot run adds to each reading of the history. *)
Lemma single_shot_observed r shell code editor h :
  let h0 := after_editor env editor h in
  let yes := confirmed env (answered env h0 r) "Execute shell command?" in
  requested (single_shot env r shell code editor h) = requested h ++ [r]
  /\ written (single_shot env r shell code editor h) = written h ++ reply env h0 r
  /\ executed (single_shot env r shell code editor h)
     = executed h ++ (if negb code && shell && yes then [Py.join (reply env h0 r)] else [])
  /\ confirmations (single_shot env r shell code editor h)
     = confirmations h ++ (if negb code && shell then [yes] else []).
Proof.
  intros h0 yes. unfold single_shot. fold h0. fold yes.
  assert (H0 : requested h0 = requested h /\ written h0 = written h
               /\ executed h0 = executed h /\ confirmations h0 = confirmations h).
  { unfold h0, after_editor. destruct editor; observe; auto. }
  destruct H0 as (Hr & Hw & He & Hc).
  destruct (negb code && shell); [destruct yes |]; unfold answered; observe;
    rewrite ?Hr, ?Hw, ?He, ?Hc; observe; auto.
Qed.

(** A session never gets past its loop: with [fuel] iterations it sends
    [fuel] requests and is still running; in a resumed chat every one of them
    is framed by [make_prompt.chat_mode] with the flags of the session. *)
Lemma session_loops fuel prompt t p id exists_ shell code cache h :
  exists more,
    chat_mode_session env fuel prompt t p id exists_ shell code cache h
    = (Looping, h ++ more)
    /\ List.length (requested more) = fuel
    /\ (exists_ = true ->
        Forall (fun r => exists text,
                  r = user_request (make_prompt_chat_mode env text shell code)
                        t p cache (Some id))
               (requested more)).
Proof.
  destruct (session_run fuel prompt t p id exists_ shell code cache h)
    as (first & m0 & Hrun & Hreq0 & text & Hfirst).
  destruct (loop_run t p id shell code cache fuel first (h ++ m0))
    as (m1 & Hloop & Hlen & Hshape).
  exists (m0 ++ m1). rewrite Hrun, Hloop, app_assoc, requested_app, Hreq0.
  cbn [app]. repeat split; [exact Hlen |].
  intros ->. destruct (requested m1) as [|r rest]; [constructor |].
  destruct Hshape as [-> Hrest]. constructor; [| exact Hrest].
  exists text. now rewrite Hfirst.
Qed.

End Runs.

(** ** Runs on the concrete collaborators *)

Example endswith_sentinels :
  Py.endswith (framing (Some "list files") true false) SHELL_SENTINEL = true
  /\ Py.endswith (framing (Some "list files") true false) CODE_SENTINEL = false
  /\ Py.endswith (framing (Some "sort a list") false true) CODE_SENTINEL = true
  /\ Py.endswith "Command:" SHELL_SENTINEL = false
  /\ Py.endswith "" "" = true.
Proof. repeat split. Qed.

(** A single-shot [--shell] run whose confirmation is answered yes. *)
Example run_single_shot_shell :
  main (no_chat true) 0 (Some "list files") T P None false true false false true []
  = (Returned tt,
     [sent (no_chat true)
        (user_request (framing (Some "list files") true false) T P true None);
      secho_word "ls"; secho_word " -l"; Secho None None false true;
      Confirm "Execute shell command?" true;
      OsSystem "ls -l"]).
Proof. reflexivity. Qed.

(** Two turns of a resumed shell chat entered without any flag: the user
    runs the first response, asks again, and the loop goes on. *)
Example run_resumed_shell_chat :
  let (o, h) := chat_mode shell_chat 2 (Some "and now?") T P "abc" false false true [] in
  o = Looping
  /\ executed h = ["ls -l"]
  /\ written h = ["ls"; " -l"; "ls"; " -l"]
  /\ map messages (requested h)
     = [[{| role := "user"; content := framing (Some "and now?") true false |}];
        [{| role := "user"; content := framing (Some "count the files") true false |}]]
  /\ filter is_prompt h
     = [Prompt "" false "e"; Prompt "Enter your prompt" true "count the files";
        Prompt "" false "wc"].
Proof. vm_compute. repeat split. Qed.

(** ** Resuming a chat: conflicts and the stored mode *)

(** C1. Resuming a chat whose first stored message ends with the code
    sentinel with [shell] set, or one whose first stored message ends with the
    shell sentinel with [code] set, raises [BadParameter] with a message that
    contains the chat id; up to the raise the history has grown by the cache
    reads and the display of the stored chat only, so no request has been
    sent to the completion client. *)
Theorem chat_mode_mode_conflict env fuel prompt t p id shell code cache h first rest :
  stored env h id = true ->
  stored_messages env (h ++ [ChatCacheExists id]) id = first :: rest ->
  (Py.endswith first CODE_SENTINEL = true -> shell = true ->
   let msg := ("Chat id:" ++ id
               ++ " was initiated as code assistant, can be used with --code only")%string in
   chat_mode env fuel prompt t p id shell code cache h
   = (Raised (BadParameter msg), resumed id shell code h)
   /\ Py.contains msg id)
  /\ (Py.endswith first SHELL_SENTINEL = true -> code = true ->
      let msg := ("Chat id:" ++ id
                  ++ " was initiated as shell assistant, can be used with --shell only")%string in
      chat_mode env fuel prompt t p id shell code cache h
      = (Raised (BadParameter msg), resumed id shell code h)
      /\ Py.contains msg id)
  /\ requested (resumed id shell code h) = requested h.
Proof.
  intros Hex Hmsgs. rewrite chat_mode_run, Hex, resume_run, Hmsgs.
  split; [| split].
  - intros Hcode ->. cbv zeta. split; [| apply contains_middle].
    destruct (Py.endswith first SHELL_SENTINEL) eqn:Hshell.
    + rewrite (sentinels_exclusive first Hshell) in Hcode. discriminate.
    + rewrite Hcode. reflexivity.
  - intros Hshell ->. cbv zeta. split; [| apply contains_middle].
    rewrite Hshell. reflexivity.
  - unfold resumed. observe. reflexivity.
Qed.

Lemma chat_mode_mode_conflict_witness :
  (exists msg,
     chat_mode code_chat 3 (Some "and now?") T P "abc" true false true []
     = (Raised (BadParameter msg), resumed "abc" true false [])
     /\ Py.contains msg "abc")
  /\ (exists msg,
        chat_mode shell_chat 3 (Some "and now?") T P "abc" false true true []
        = (Raised (BadParameter msg), resumed "abc" false true [])
        /\ Py.contains msg "abc").
Proof.
  split.
  - eexists.
    apply (proj1 (chat_mode_mode_conflict code_chat 3 (Some "and now?") T P "abc"
                    true false true [] _ _ eq_refl eq_refl));
      reflexivity.
  - eexists.
    apply (proj1 (proj2 (chat_mode_mode_conflict shell_chat 3 (Some "and now?") T P "abc"
                    false true true [] _ _ eq_refl eq_refl)));
      reflexivity.
Defined.

(** C2. In a resumed chat whose flags do not conflict with it, the flags in
    force from there on are read off the first stored message alone: [shell]
    is whether it ends with the shell sentinel, [code] whether it ends with
    the code sentinel (never both), and the flags of the caller are dropped.
    The rest of the invocation is the session run with the stored flags, and
    every request it sends is framed by [make_prompt.chat_mode] with them. *)
Theorem chat_mode_adopts_stored_mode env fuel prompt t p id shell code cache h first rest :
  stored env h id = true ->
  stored_messages env (h ++ [ChatCacheExists id]) id = first :: rest ->
  let is_shell_chat := Py.endswith first SHELL_SENTINEL in
  let is_code_chat := Py.endswith first CODE_SENTINEL in
  is_shell_chat && code = false ->
  is_code_chat && shell = false ->
  chat_mode_resume env id shell code (h ++ [ChatCacheExists id])
  = (Returned (is_shell_chat, is_code_chat), resumed id shell code h)
  /\ chat_mode env fuel prompt t p id shell code cache h
     = chat_mode_session env fuel prompt t p id true is_shell_chat is_code_chat cache
         (resumed id shell code h)
  /\ is_shell_chat && is_code_chat = false
  /\ exists more,
       chat_mode env fuel prompt t p id shell code cache h
       = (Looping, resumed id shell code h ++ more)
       /\ List.length (requested more) = fuel
       /\ Forall (fun r => exists text,
                    r = user_request
                          (make_prompt_chat_mode env text is_shell_chat is_code_chat)
                          t p cache (Some id))
                 (requested more).
Proof.
  intros Hex Hmsgs is_shell_chat is_code_chat Hs Hc.
  assert (Hres : chat_mode_resume env id shell code (h ++ [ChatCacheExists id])
                 = (Returned (is_shell_chat, is_code_chat), resumed id shell code h)).
  { rewrite resume_run, Hmsgs. fold is_shell_chat is_code_chat. now rewrite Hs, Hc. }
  assert (Hrun : chat_mode env fuel prompt t p id shell code cache h
                 = chat_mode_session env fuel prompt t p id true
                     is_shell_chat is_code_chat cache (resumed id shell code h)).
  { rewrite chat_mode_run, Hex, Hres. reflexivity. }
  split; [exact Hres |]. split; [exact Hrun |].
  split; [apply sentinels_not_both |].
  destruct (session_loops env fuel prompt t p id true is_shell_chat is_code_chat cache
              (resumed id shell code h)) as (more & Hloop & Hlen & Hall).
  exists more. rewrite Hrun. auto.
Qed.

Lemma chat_mode_adopts_stored_mode_witness :
  chat_mode shell_chat 2 (Some "and now?") T P "abc" false false true []
  = chat_mode_session shell_chat 2 (Some "and now?") T P "abc" true true false true
      (resumed "abc" false false [])
  /\ requested (snd (chat_mode shell_chat 2 (Some "and now?") T P "abc" false false true []))
     = [user_request (framing (Some "and now?") true false) T P true (Some "abc");
        user_request (framing (Some "count the files") true false) T P true (Some "abc")].
Proof.
  split.
  - exact (proj1 (proj2 (chat_mode_adopts_stored_mode shell_chat 2 (Some "and now?") T P
                           "abc" false false true [] _ _ eq_refl eq_refl eq_refl eq_refl))).
  - reflexivity.
Defined.

(** C5 as stated fails: with a chat that the cache knows and no stored
    message, what ends the run is not an exception raised by a check of the
    module. *)
Lemma corrupt_session_not_checked :
  ~ (exists e,
       fst (chat_mode empty_chat 1 (Some "hello") T P "abc" false false true [])
       = Raised e
       /\ raised_by_check e = true).
Proof.
  intros (e & Hrun & Hrep). vm_compute in Hrun. injection Hrun as <-. discriminate Hrep.
Qed.

(** C5, amended. When the cache knows the chat and returns no message, the
    subscript [chat_history[0]] raises [IndexError]: the stored chat has been
    shown (empty), no request has been sent, and the process ends with the
    status of an uncaught exception. *)
Theorem chat_mode_empty_history_index_error env fuel prompt t p id shell code cache h :
  stored env h id = true ->
  stored_messages env (h ++ [ChatCacheExists id]) id = [] ->
  chat_mode env fuel prompt t p id shell code cache h
  = (Raised IndexError, resumed id shell code h)
  /\ requested (resumed id shell code h) = requested h
  /\ exit_status (fst (chat_mode env fuel prompt t p id shell code cache h)) = Some 1%Z.
Proof.
  intros Hex Hmsgs.
  assert (Hrun : chat_mode env fuel prompt t p id shell code cache h
                 = (Raised IndexError, resumed id shell code h)).
  { now rewrite chat_mode_run, Hex, resume_run, Hmsgs. }
  split; [exact Hrun |]. split.
  - unfold resumed. observe. reflexivity.
  - now rewrite Hrun.
Qed.

Lemma chat_mode_empty_history_index_error_witness :
  chat_mode empty_chat 1 (Some "hello") T P "abc" false false true []
  = (Raised IndexError, resumed "abc" false false []).
Proof.
  exact (proj1 (chat_mode_empty_history_index_error empty_chat 1 (Some "hello") T P "abc"
                  false false true [] eq_refl eq_refl)).
Defined.

(** ** Streaming and execution *)

(** C4. In a shell chat, when the line typed at the choice is exactly
    [execute] or [e], the response is handed to [os.system] once, a prompt
    [Enter your prompt] is read next, and what is typed there (not the
    choice) is the text of the next turn.  For any other line nothing is run
    and the line itself is the text of the next turn. *)
Theorem shell_choice_execute_or_revise env t p id code cache prompt h :
  let r := user_request prompt t p cache (Some id) in
  let input := choice env h r true in
  (input = "execute" \/ input = "e" ->
   chat_mode_turn env t p id true code cache prompt h
   = (Returned (Continue
        (make_prompt_chat_mode env (Some (fresh_prompt env h r)) true code)),
      chosen env h r true ++
      [Echo None; OsSystem (Py.join (reply env h r)); Echo None;
       RichPrint (Rule "" "bold magenta") LF;
       Prompt "Enter your prompt" true (fresh_prompt env h r)])
   /\ executed (reprompted env h r) = executed h ++ [Py.join (reply env h r)])
  /\ (input <> "execute" -> input <> "e" ->
      chat_mode_turn env t p id true code cache prompt h
      = (Returned (Continue (make_prompt_chat_mode env (Some input) true code)),
         chosen env h r true)
      /\ executed (chosen env h r true) = executed h).
Proof.
  intros r input. split.
  - intros Hin.
    assert (E : String.eqb (choice env h r true) "execute"
                || String.eqb (choice env h r true) "e" = true).
    { fold input. destruct Hin as [-> | ->]; reflexivity. }
    split.
    + rewrite (turn_execute env t p id code cache prompt h E).
      unfold reprompted, ran. hnorm. reflexivity.
    + unfold reprompted, ran, chosen, asked, answered. observe. reflexivity.
  - intros N1 N2.
    assert (E : true && (String.eqb (choice env h r true) "execute"
                         || String.eqb (choice env h r true) "e") = false).
    { fold input. apply String.eqb_neq in N1, N2. now rewrite N1, N2. }
    split.
    + exact (turn_keep env t p id true code cache prompt h E).
    + unfold chosen, asked, answered. observe. reflexivity.
Qed.

Lemma shell_choice_execute_or_revise_witness :
  (executed (snd (chat_mode_turn shell_chat T P "abc" true false true "p" []))
   = ["ls -l"]
   /\ fst (chat_mode_turn shell_chat T P "abc" true false true "p" [])
      = Returned (Continue (framing (Some "count the files") true false)))
  /\ (executed (snd (chat_mode_turn (scripted true [] ["ls"] ["exec"] true "")
                       T P "abc" true false true "p" []))
      = []
      /\ fst (chat_mode_turn (scripted true [] ["ls"] ["exec"] true "")
                T P "abc" true false true "p" [])
         = Returned (Continue (framing (Some "exec") true false))).
Proof.
  split.
  - destruct (proj1 (shell_choice_execute_or_revise shell_chat T P "abc" false true "p" [])
                (or_intror eq_refl)) as [Hrun Hexec].
    rewrite Hrun. split; reflexivity.
  - destruct (proj2 (shell_choice_execute_or_revise (scripted true [] ["ls"] ["exec"] true "")
                       T P "abc" false true "p" [])) as [Hrun Hexec].
    + discriminate.
    + discriminate.
    + rewrite Hrun. split; reflexivity.
Defined.

(** C9. In a shell chat, the prompt read after the response was run is
    passed through [make_prompt.chat_mode] with [shell] set, as a revision
    is, and the result is the content of the next request. *)
Theorem post_execute_prompt_rewrapped env t p id code cache prompt h :
  let r := user_request prompt t p cache (Some id) in
  let input := choice env h r true in
  input = "execute" \/ input = "e" ->
  let next := make_prompt_chat_mode env (Some (fresh_prompt env h r)) true code in
  chat_mode_turn env t p id true code cache prompt h
  = (Returned (Continue next), reprompted env h r)
  /\ exists h',
       while_true 2 (chat_mode_turn env t p id true code cache) prompt h = (Looping, h')
       /\ requested h' = requested h ++ [r; user_request next t p cache (Some id)].
Proof.
  intros r input Hin next.
  assert (E : String.eqb (choice env h r true) "execute"
              || String.eqb (choice env h r true) "e" = true).
  { fold input. destruct Hin as [-> | ->]; reflexivity. }
  pose proof (turn_execute env t p id code cache prompt h E) as Hrun.
  split; [exact Hrun |].
  destruct (turn_continues env t p id true code cache next (reprompted env h r))
    as (text & more & Hrun2 & Hreq2 & _ & _).
  eexists. split.
  - rewrite (while_true_continue _ _ _ _ _ _ Hrun).
    rewrite (while_true_continue _ _ _ _ _ _ Hrun2). reflexivity.
  - rewrite requested_app, Hreq2.
    unfold reprompted, ran, chosen, asked, answered. observe.
    rewrite <- app_assoc. reflexivity.
Qed.

Lemma post_execute_prompt_rewrapped_witness :
  exists h',
    while_true 2 (chat_mode_turn shell_chat T P "abc" true false true) "p" [] = (Looping, h')
    /\ requested h'
       = [user_request "p" T P true (Some "abc");
          user_request (framing (Some "count the files") true false) T P true (Some "abc")].
Proof.
  exact (proj2 (post_execute_prompt_rewrapped shell_chat T P "abc" false true "p" []
                  (or_intror eq_refl))).
Defined.

(** ** The single-shot path *)

(** C6. Without a chat id, a command is run (and then only one) exactly when
    [shell] is set, [code] is not, and the user answered yes to the
    confirmation, which is asked at most once.  [ran] and [answers] are what
    the run adds to the commands run and to the confirmations answered. *)
Theorem single_shot_executes_iff_confirmed
    env fuel prompt t p chat list_chat shell code editor cache h :
  Py.truthy chat = false ->
  exists o h' ran answers,
    main env fuel prompt t p chat list_chat shell code editor cache h = (o, h')
    /\ executed h' = executed h ++ ran
    /\ confirmations h' = confirmations h ++ answers
    /\ (ran <> [] <-> shell = true /\ code = false /\ answers = [true])
    /\ List.length ran <= 1
    /\ List.length answers <= 1.
Proof.
  intros Hchat. destruct list_chat.
  - exists (Returned tt), (h ++ [EchoChatIds]), [], [].
    rewrite main_list_chat. observe.
    repeat (split; [reflexivity |]). split; [| cbn; lia].
    split; [intros H; now contradiction H | intros (_ & _ & H); discriminate H].
  - destruct (negb (Py.truthy (edited_prompt env editor prompt h)) && negb editor) eqn:Hp.
    + exists (Raised (MissingParameter "PROMPT" "string")), h, [], [].
      rewrite (main_missing env fuel prompt t p chat shell code editor cache h Hchat Hp).
      assert (editor = false) as ->
        by (destruct editor; [now rewrite andb_false_r in Hp | reflexivity]).
      unfold after_editor. rewrite !app_nil_r.
      repeat (split; [reflexivity |]). split; [| cbn; lia].
      split; [intros H; now contradiction H | intros (_ & _ & H); discriminate H].
    + rewrite (main_single_shot env fuel prompt t p chat shell code editor cache h Hchat Hp).
      set (r := user_request _ t p cache chat).
      destruct (single_shot_observed env r shell code editor h) as (_ & _ & He & Hc).
      do 4 eexists. split; [reflexivity |]. split; [exact He |]. split; [exact Hc |].
      destruct code, shell; cbn [negb andb]; try destruct (confirmed env _ _);
        (split; [| cbn; lia]);
        (split;
         [ intros H; try (now contradiction H); auto
         | intros (H1 & H2 & H3); try discriminate; easy ]).
Qed.

Lemma single_shot_executes_iff_confirmed_witness :
  (exists o h',
     main (no_chat true) 0 (Some "list files") T P None false true false false true []
     = (o, h')
     /\ executed h' = ["ls -l"] /\ confirmations h' = [true])
  /\ (exists o h',
        main (no_chat false) 0 (Some "list files") T P None false true false false true []
        = (o, h')
        /\ executed h' = [] /\ confirmations h' = [false]).
Proof.
  split.
  - destruct (single_shot_executes_iff_confirmed (no_chat true) 0 (Some "list files")
                T P None false true false false true [] eq_refl)
      as (o & h' & ran & answers & Hrun & _).
    exists o, h'. split; [exact Hrun |].
    vm_compute in Hrun. injection Hrun as <- <-. split; reflexivity.
  - destruct (single_shot_executes_iff_confirmed (no_chat false) 0 (Some "list files")
                T P None false true false false true [] eq_refl)
      as (o & h' & ran & answers & Hrun & _).
    exists o, h'. split; [exact Hrun |].
    vm_compute in Hrun. injection Hrun as <- <-. split; reflexivity.
Defined.

(** C7. Without a chat id, without [--list-chat] and without [--editor], a
    missing or empty prompt makes [main] raise [MissingParameter] at once:
    the history is unchanged (no prompt was framed, no request sent) and
    the exit status of the program is 2. *)
Theorem missing_prompt_usage_error env fuel prompt t p chat shell code cache h :
  Py.truthy chat = false ->
  Py.truthy prompt = false ->
  main env fuel prompt t p chat false shell code false cache h
  = (Raised (MissingParameter "PROMPT" "string"), h)
  /\ entry_point env fuel prompt t p chat false shell code false cache h = (Some 2%Z, h)
  /\ (2 <> 0)%Z.
Proof.
  intros Hchat Hprompt.
  assert (Hrun : main env fuel prompt t p chat false shell code false cache h
                 = (Raised (MissingParameter "PROMPT" "string"), h)).
  { apply (main_missing env fuel prompt t p chat shell code false cache h Hchat).
    unfold edited_prompt. now rewrite Hprompt. }
  split; [exact Hrun |]. split; [| discriminate].
  unfold entry_point. now rewrite Hrun.
Qed.

Lemma missing_prompt_usage_error_witness :
  main (no_chat true) 0 None T P None false true false false true []
  = (Raised (MissingParameter "PROMPT" "string"), [])
  /\ entry_point (no_chat true) 0 (Some "") T P (Some "") false false false false true []
     = (Some 2%Z, []).
Proof.
  split.
  - exact (proj1 (missing_prompt_usage_error (no_chat true) 0 None T P None
                    true false true [] eq_refl eq_refl)).
  - exact (proj1 (proj2 (missing_prompt_usage_error (no_chat true) 0 (Some "") T P (Some "")
                           false false true [] eq_refl eq_refl))).
Defined.

(** C10. Without a chat id and with [--editor], an empty text from the
    editor raises nothing: [main] returns, and the one request it has sent
    carries the empty prompt framed by [make_prompt.initial]. *)
Theorem empty_edited_prompt_is_sent env fuel prompt t p chat shell code cache h :
  Py.truthy chat = false ->
  edited env h = "" ->
  exists h',
    main env fuel prompt t p chat false shell code true cache h = (Returned tt, h')
    /\ requested h'
       = requested h
         ++ [user_request (make_prompt_initial env (Some "") shell code) t p cache chat].
Proof.
  intros Hchat Hempty. eexists. split.
  - apply (main_single_shot env); [exact Hchat | apply andb_false_r].
  - destruct (single_shot_observed env
                (user_request
                   (make_prompt_initial env (edited_prompt env true prompt h) shell code)
                   t p cache chat) shell code true h) as (Hreq & _).
    rewrite Hreq. unfold edited_prompt. now rewrite Hempty.
Qed.

Lemma empty_edited_prompt_is_sent_witness :
  exists h',
    main (no_chat false) 0 None T P None false false true true true [] = (Returned tt, h')
    /\ requested h' = [user_request (framing (Some "") false true) T P true None].
Proof.
  exact (empty_edited_prompt_is_sent (no_chat false) 0 None T P None false true true []
           eq_refl eq_refl).
Defined.

(** ** The chat loop *)

(** C8. A turn of the chat loop ends by asking for the next turn whatever
    the user typed and whatever the client answered, having sent one more
    request; so after any number [n] of iterations the loop is still running
    and has sent [n] requests, a session never gets past its loop, and
    [chat_mode] ends with an exception if it ends at all: it never returns. *)
Theorem chat_loop_never_returns env t p id shell code cache :
  (forall prompt h,
     exists next h',
       chat_mode_turn env t p id shell code cache prompt h
       = (Returned (Continue next), h')
       /\ requested h' = requested h ++ [user_request prompt t p cache (Some id)])
  /\ (forall n prompt h,
        exists h',
          while_true n (chat_mode_turn env t p id shell code cache) prompt h
          = (Looping, h')
          /\ List.length (requested h') = List.length (requested h) + n)
  /\ (forall fuel prompt exists_ h,
        fst (chat_mode_session env fuel prompt t p id exists_ shell code cache h)
        = Looping)
  /\ (forall fuel prompt h,
        fst (chat_mode env fuel prompt t p id shell code cache h) = Looping
        \/ exists e, fst (chat_mode env fuel prompt t p id shell code cache h) = Raised e).
Proof.
  split; [| split; [| split]].
  - intros prompt h.
    destruct (turn_continues env t p id shell code cache prompt h)
      as (text & more & Hrun & Hreq & _).
    do 2 eexists. split; [exact Hrun |]. now rewrite requested_app, Hreq.
  - intros n prompt h.
    destruct (loop_run env t p id shell code cache n prompt h) as (more & Hrun & Hlen & _).
    eexists. split; [exact Hrun |]. now rewrite requested_app, length_app, Hlen.
  - intros fuel prompt exists_ h.
    destruct (session_loops env fuel prompt t p id exists_ shell code cache h)
      as (more & Hrun & _).
    now rewrite Hrun.
  - intros fuel prompt h. rewrite chat_mode_run.
    destruct (stored env h id).
    + rewrite resume_run.
      destruct (stored_messages env (h ++ [ChatCacheExists id]) id) as [|first rest];
        [right; eexists; reflexivity |].
      destruct (Py.endswith first SHELL_SENTINEL && code);
        [right; eexists; reflexivity |].
      destruct (Py.endswith first CODE_SENTINEL && shell);
        [right; eexists; reflexivity |].
      left. cbn [fst snd].
      destruct (session_loops env fuel prompt t p id true
                  (Py.endswith first SHELL_SENTINEL) (Py.endswith first CODE_SENTINEL)
                  cache (resumed id shell code h)) as (more & Hrun & _).
      now rewrite Hrun.
    + left.
      destruct (session_loops env fuel prompt t p id false shell code cache
                  (h ++ [ChatCacheExists id])) as (more & Hrun & _).
      now rewrite Hrun.
Qed.

(** ** Invariants of the chat loop *)

Lemma filter_words (q : event -> bool) ws :
  (forall w, q (secho_word w) = false) -> filter q (map secho_word ws) = [].
Proof.
  intros Hq. induction ws as [|w ws IH]; cbn [map filter]; [reflexivity |].
  now rewrite Hq.
Qed.

Section Loop.

Variable env : environment.

(** The events of one turn: the request, the reply, the choice, and, when
    the response is run, the command and the prompt read after it. *)
Lemma turn_shape t p id shell code cache prompt h :
  let r := user_request prompt t p cache (Some id) in
  exists text tail,
    chat_mode_turn env t p id shell code cache prompt h
    = (Returned (Continue (make_prompt_chat_mode env (Some text) shell code)),
       h ++ sent env r :: map secho_word (reply env h r)
         ++ [Secho None None false true;
             RichPrint (Markup (choice_text shell)) "";
             Prompt "" false (choice env h r shell)] ++ tail)
    /\ ((shell && is_execute (choice env h r shell) = false /\ tail = [])
        \/ (shell = true /\ is_execute (choice env h r shell) = true
            /\ exists fresh,
                 tail = [Echo None; OsSystem (Py.join (reply env h r)); Echo None;
                         RichPrint (Rule "" "bold magenta") LF;
                         Prompt "Enter your prompt" true fresh])).
Proof.
  intros r. destruct (shell && is_execute (choice env h r shell)) eqn:E.
  - apply andb_true_iff in E. destruct E as [-> E].
    exists (fresh_prompt env h r). eexists. split.
    + rewrite (turn_execute env t p id code cache prompt h E).
      unfold reprompted, ran, chosen, asked, answered. hnorm. reflexivity.
    + right. repeat split; [exact E |]. eexists. reflexivity.
  - exists (choice env h r shell), []. split.
    + rewrite (turn_keep env t p id shell code cache prompt h E).
      unfold chosen, asked, answered. hnorm. reflexivity.
    + left. split; reflexivity.
Qed.

(** A property of the events added to the history that holds of every turn
    and is kept by concatenation holds of any number of turns. *)
Lemma loop_keeps (Q : history -> Prop) t p id shell code cache :
  Q [] ->
  (forall a b, Q a -> Q b -> Q (a ++ b)) ->
  (forall prompt h, exists next more,
      chat_mode_turn env t p id shell code cache prompt h
      = (Returned (Continue next), h ++ more) /\ Q more) ->
  forall n prompt h, exists more,
    while_true n (chat_mode_turn env t p id shell code cache) prompt h
    = (Looping, h ++ more) /\ Q more.
Proof.
  intros Qnil Qapp Qturn. induction n as [|n IH]; intros prompt h.
  - exists []. cbn. now rewrite app_nil_r.
  - destruct (Qturn prompt h) as (next & m1 & Hrun & Q1).
    destruct (IH next (h ++ m1)) as (m2 & Hloop & Q2).
    exists (m1 ++ m2). rewrite (while_true_continue _ _ _ _ _ _ Hrun), Hloop, app_assoc.
    auto.
Qed.

(** The session adds the echo of its prompt, or the prompt it reads when it
    has none, and then the events of its turns. *)
Lemma session_keeps (Q : history -> Prop) fuel prompt t p id exists_ shell code cache h :
  Q [] ->
  (forall a b, Q a -> Q b -> Q (a ++ b)) ->
  (forall prompt h, exists next more,
      chat_mode_turn env t p id shell code cache prompt h
      = (Returned (Continue next), h ++ more) /\ Q more) ->
  (Py.truthy prompt = true -> Q [Echo prompt]) ->
  (Py.truthy prompt = false -> forall a, Q [Prompt "Enter your prompt" true a]) ->
  exists more,
    chat_mode_session env fuel prompt t p id exists_ shell code cache h
    = (Looping, h ++ more) /\ Q more.
Proof.
  intros Qnil Qapp Qturn Qecho Qread. unfold chat_mode_session.
  destruct (Py.truthy prompt) eqn:Hp; cbn [negb]; unfold bind at 1;
    unfold typer_echo, typer_prompt, call, bind, ret; cbn beta iota zeta.
  - match goal with
    | |- context [while_true fuel ?body ?first (h ++ ?m0)] =>
        destruct (loop_keeps Q t p id shell code cache Qnil Qapp Qturn fuel first (h ++ m0))
          as (m1 & Hloop & Q1);
        exists (m0 ++ m1); rewrite Hloop, app_assoc; auto
    end.
  - match goal with
    | |- context [while_true fuel ?body ?first (h ++ ?m0)] =>
        destruct (loop_keeps Q t p id shell code cache Qnil Qapp Qturn fuel first (h ++ m0))
          as (m1 & Hloop & Q1);
        exists (m0 ++ m1); rewrite Hloop, app_assoc; auto
    end.
Qed.

End Loop.

(** ** How a chat invocation can go *)

Section Cases.

Variable env : environment.

(** [chat_mode] starts a session with the flags of the caller when the cache
    does not know the chat; otherwise it stops on the subscript or on a
    conflict once the stored chat has been shown, or starts a session with
    the stored flags. *)
Lemma chat_mode_cases fuel prompt t p id shell code cache h :
  (stored env h id = false
   /\ chat_mode env fuel prompt t p id shell code cache h
      = chat_mode_session env fuel prompt t p id false shell code cache
          (h ++ [ChatCacheExists id]))
  \/ (stored env h id = true
      /\ exists e,
           chat_mode env fuel prompt t p id shell code cache h
           = (Raised e, resumed id shell code h)
           /\ ((e = IndexError
                /\ stored_messages env (h ++ [ChatCacheExists id]) id = [])
               \/ exists first rest msg,
                    stored_messages env (h ++ [ChatCacheExists id]) id = first :: rest
                    /\ e = BadParameter msg
                    /\ (Py.endswith first SHELL_SENTINEL && code
                        || Py.endswith first CODE_SENTINEL && shell) = true))
  \/ (stored env h id = true
      /\ exists first rest,
           stored_messages env (h ++ [ChatCacheExists id]) id = first :: rest
           /\ (Py.endswith first SHELL_SENTINEL && code
               || Py.endswith first CODE_SENTINEL && shell) = false
           /\ chat_mode env fuel prompt t p id shell code cache h
              = chat_mode_session env fuel prompt t p id true
                  (Py.endswith first SHELL_SENTINEL) (Py.endswith first CODE_SENTINEL)
                  cache (resumed id shell code h)).
Proof.
  rewrite chat_mode_run. destruct (stored env h id) eqn:Hex; [right | left; auto].
  rewrite resume_run.
  destruct (stored_messages env (h ++ [ChatCacheExists id]) id) as [|first rest] eqn:Hm.
  - left. split; [reflexivity |]. exists IndexError. auto.
  - destruct (Py.endswith first SHELL_SENTINEL && code) eqn:H1.
    + left. split; [reflexivity |]. eexists. split; [reflexivity |].
      right. exists first, rest. eexists. rewrite H1. repeat split; reflexivity.
    + destruct (Py.endswith first CODE_SENTINEL && shell) eqn:H2.
      * left. split; [reflexivity |]. eexists. split; [reflexivity |].
        right. exists first, rest. eexists. rewrite H1, H2. repeat split; reflexivity.
      * right. split; [reflexivity |]. exists first, rest. rewrite H1, H2.
        repeat split; reflexivity.
Qed.

End Cases.

(** X1. A known chat with a first stored message is refused with
    [BadParameter] exactly when it is a shell chat entered with [code] or a
    code chat entered with [shell]; in every other case (the flag of the
    stored mode, no flag, or any flags on a chat without sentinel) the
    session starts and is still running after any number of turns. *)
Theorem chat_mode_conflict_iff env fuel prompt t p id shell code cache h first rest :
  stored env h id = true ->
  stored_messages env (h ++ [ChatCacheExists id]) id = first :: rest ->
  let conflict :=
    Py.endswith first SHELL_SENTINEL && code || Py.endswith first CODE_SENTINEL && shell in
  ((exists msg, fst (chat_mode env fuel prompt t p id shell code cache h)
                = Raised (BadParameter msg))
   <-> conflict = true)
  /\ (fst (chat_mode env fuel prompt t p id shell code cache h) = Looping
      <-> conflict = false).
Proof.
  intros Hex Hm conflict.
  destruct (chat_mode_cases env fuel prompt t p id shell code cache h)
    as [[Hno _] | [(_ & e & Hrun & Hwhy) | (_ & f & r & Hm' & Hok & Hrun)]].
  - congruence.
  - destruct Hwhy as [[_ Hnil] | (f & r & msg & Hm' & -> & Hc)]; [congruence |].
    rewrite Hm in Hm'. injection Hm' as <- <-. fold conflict in Hc.
    rewrite Hrun, Hc. cbn [fst]. split; split; try discriminate; eauto.
  - rewrite Hm in Hm'. injection Hm' as <- <-. fold conflict in Hok.
    destruct (session_loops env fuel prompt t p id true
                (Py.endswith first SHELL_SENTINEL) (Py.endswith first CODE_SENTINEL)
                cache (resumed id shell code h)) as (more & Hloop & _).
    rewrite Hrun, Hloop, Hok. cbn [fst]. split; split; try discriminate; auto.
    intros [msg Habs]. discriminate Habs.
Qed.

Lemma chat_mode_conflict_iff_witness :
  fst (chat_mode shell_chat 2 (Some "and now?") T P "abc" true false true []) = Looping
  /\ exists msg,
       fst (chat_mode shell_chat 2 (Some "and now?") T P "abc" true true true [])
       = Raised (BadParameter msg).
Proof.
  split.
  - apply (proj2 (chat_mode_conflict_iff shell_chat 2 (Some "and now?") T P "abc"
                    true false true [] _ _ eq_refl eq_refl)).
    reflexivity.
  - apply (proj1 (chat_mode_conflict_iff shell_chat 2 (Some "and now?") T P "abc"
                    true true true [] _ _ eq_refl eq_refl)).
    reflexivity.
Defined.

Section Keeps.

Variable env : environment.

(** The session adds one event for its prompt and then the events of its
    loop; [Q] is any property of the latter that every turn has. *)
Lemma session_split (Q : history -> Prop) fuel prompt t p id exists_ shell code cache h :
  Q [] ->
  (forall a b, Q a -> Q b -> Q (a ++ b)) ->
  (forall prompt h, exists next more,
      chat_mode_turn env t p id shell code cache prompt h
      = (Returned (Continue next), h ++ more) /\ Q more) ->
  exists entry more,
    chat_mode_session env fuel prompt t p id exists_ shell code cache h
    = (Looping, h ++ entry :: more)
    /\ ((Py.truthy prompt = true /\ entry = Echo prompt)
        \/ (Py.truthy prompt = false
            /\ exists a, entry = Prompt "Enter your prompt" true a))
    /\ Q more.
Proof.
  intros Qnil Qapp Qturn. unfold chat_mode_session.
  destruct (Py.truthy prompt) eqn:Hp; cbn [negb]; unfold bind at 1;
    unfold typer_echo, typer_prompt, call, bind, ret; cbn beta iota zeta;
    match goal with
    | |- context [while_true fuel ?body ?first (h ++ [?e])] =>
        destruct (loop_keeps env Q t p id shell code cache Qnil Qapp Qturn fuel first
                    (h ++ [e])) as (m1 & Hloop & Q1);
        exists e, m1; rewrite Hloop, <- app_assoc; cbn [app];
        split; [reflexivity | split; [| exact Q1]]
    end.
  - left. auto.
  - right. split; [reflexivity |]. eexists. reflexivity.
Qed.

(** A property of the added events that holds of the cache reads, of the
    display of the stored chat, of the prompt and of every turn, whatever
    the flags, holds of the whole invocation. *)
Lemma chat_mode_keeps (Q : history -> Prop) fuel prompt t p id shell code cache h :
  Q [] ->
  (forall a b, Q a -> Q b -> Q (a ++ b)) ->
  (forall s c prompt h, exists next more,
      chat_mode_turn env t p id s c cache prompt h
      = (Returned (Continue next), h ++ more) /\ Q more) ->
  (forall m, Q [Echo m]) ->
  (forall a, Q [Prompt "Enter your prompt" true a]) ->
  Q [ChatCacheExists id] ->
  Q [ChatCacheGetMessages id; RichPrint (Rule "Chat History" "bold magenta") LF;
     EchoChatMessages id shell code; RichPrint (Rule "" "bold magenta") LF] ->
  exists o more,
    chat_mode env fuel prompt t p id shell code cache h = (o, h ++ more) /\ Q more.
Proof.
  intros Qnil Qapp Qturn Qecho Qread Qex Qshow.
  assert (Qres : Q [ChatCacheExists id; ChatCacheGetMessages id;
                    RichPrint (Rule "Chat History" "bold magenta") LF;
                    EchoChatMessages id shell code;
                    RichPrint (Rule "" "bold magenta") LF; Echo None]).
  { exact (Qapp [ChatCacheExists id] _ Qex (Qapp _ [Echo None] Qshow (Qecho None))). }
  destruct (chat_mode_cases env fuel prompt t p id shell code cache h)
    as [[_ Hrun] | [(_ & e & Hrun & _) | (_ & f & r & _ & _ & Hrun)]].
  - destruct (session_keeps env Q fuel prompt t p id false shell code cache
                (h ++ [ChatCacheExists id]) Qnil Qapp (Qturn shell code)
                (fun _ => Qecho prompt) (fun _ => Qread)) as (more & Hs & Qm).
    exists Looping, ([ChatCacheExists id] ++ more).
    rewrite Hrun, Hs, app_assoc. auto.
  - exists (Raised e). eexists. rewrite Hrun. unfold resumed. split; [reflexivity | exact Qres].
  - destruct (session_keeps env Q fuel prompt t p id true
                (Py.endswith f SHELL_SENTINEL) (Py.endswith f CODE_SENTINEL) cache
                (resumed id shell code h) Qnil Qapp (Qturn _ _)
                (fun _ => Qecho prompt) (fun _ => Qread)) as (more & Hs & Qm).
    exists Looping. eexists. rewrite Hrun, Hs. unfold resumed. rewrite <- app_assoc.
    split; [reflexivity | auto].
Qed.

(** [chat_mode] does not return. *)
Lemma chat_mode_not_returned fuel prompt t p id shell code cache h v :
  fst (chat_mode env fuel prompt t p id shell code cache h) <> Returned v.
Proof.
  destruct (chat_mode_cases env fuel prompt t p id shell code cache h)
    as [[_ Hc] | [(_ & e & Hc & _) | (_ & f & r & _ & _ & Hc)]]; rewrite Hc.
  - destruct (session_loops env fuel prompt t p id false shell code cache
                (h ++ [ChatCacheExists id])) as (m & -> & _). discriminate.
  - discriminate.
  - destruct (session_loops env fuel prompt t p id true
                (Py.endswith f SHELL_SENTINEL) (Py.endswith f CODE_SENTINEL) cache
                (resumed id shell code h)) as (m & -> & _). discriminate.
Qed.

(** With a chat id, [main] is [chat_mode] on the prompt the editor left. *)
Lemma main_chat fuel prompt t p id shell code editor cache h :
  Py.truthy (Some id) = true ->
  main env fuel prompt t p (Some id) false shell code editor cache h
  = chat_mode env fuel (edited_prompt env editor prompt h) t p id shell code cache
      (after_editor env editor h).
Proof.
  intros Hid. unfold main. unfold bind at 1.
  assert (Hed :
    (if editor then p0 <- get_edited_prompt env ;; ret (Some p0) else ret prompt) h
    = (Returned (edited_prompt env editor prompt h), after_editor env editor h)).
  { unfold edited_prompt, after_editor. destruct editor; reflexivity. }
  rewrite Hed, Hid. unfold bind at 1.
  pose proof (chat_mode_not_returned fuel (edited_prompt env editor prompt h) t p id
                shell code cache (after_editor env editor h)) as Hnot.
  destruct (chat_mode env fuel (edited_prompt env editor prompt h) t p id shell code cache
              (after_editor env editor h)) as [[v | e |] h']; [| reflexivity | reflexivity].
  now contradiction (Hnot v).
Qed.

End Keeps.

(** Splits a turn into its two shapes and leaves the property to be shown of
    the events of each. *)
Ltac by_turn_shape env t p id s c cache pr h0 :=
  let text := fresh "text" in
  let tail := fresh "tail" in
  let Hrun := fresh "Hrun" in
  let Hkeep := fresh "Hkeep" in
  let Hshell := fresh "Hshell" in
  let Hexec := fresh "Hexec" in
  let again := fresh "again" in
  destruct (turn_shape env t p id s c cache pr h0)
    as (text & tail & Hrun & [[Hkeep ->] | (Hshell & Hexec & again & ->)]);
  do 2 eexists; (split; [exact Hrun |]).

(** Counts the calls of each kind in a history given stage by stage. *)
Ltac tally :=
  repeat (first
    [ rewrite filter_app | rewrite length_app
    | rewrite written_app | rewrite executed_app
    | rewrite requested_app | rewrite confirmations_app
    | rewrite written_words | rewrite executed_words
    | rewrite requested_words | rewrite confirmations_words
    | rewrite filter_words by (intros; reflexivity)
    | progress cbn [written executed requested confirmations app secho_word sent
                    filter List.length map is_chat_cache is_completion is_prompt
                    is_execute_choice String.eqb Ascii.eqb Bool.eqb negb andb orb]
    | rewrite app_nil_r ]).

(** ** A fresh chat *)

(** X2. When the cache does not know the chat, nothing is read from it or
    shown; the flags of the caller stay in force: the first request carries
    the prompt framed by [make_prompt.initial] with them, every later one a
    prompt framed by [make_prompt.chat_mode] with them, and the run is still
    in its loop after any number of turns. *)
Theorem fresh_chat_keeps_caller_flags env fuel prompt t p id shell code cache h :
  stored env h id = false ->
  exists entry more,
    chat_mode env fuel prompt t p id shell code cache h
    = (Looping, h ++ ChatCacheExists id :: entry :: more)
    /\ (entry = Echo prompt \/ exists a, entry = Prompt "Enter your prompt" true a)
    /\ List.length (requested more) = fuel
    /\ match requested more with
       | [] => True
       | r :: rest =>
           (exists text,
              r = user_request (make_prompt_initial env text shell code) t p cache (Some id))
           /\ Forall (fun r' => exists text,
                        r' = user_request (make_prompt_chat_mode env text shell code)
                               t p cache (Some id)) rest
       end.
Proof.
  intros Hex. rewrite chat_mode_run, Hex. unfold chat_mode_session.
  destruct (Py.truthy prompt) eqn:Hp; cbn [negb]; unfold bind at 1;
    unfold typer_echo, typer_prompt, call, bind, ret; cbn beta iota zeta;
    match goal with
    | |- context [while_true fuel ?body ?first ((h ++ [?c]) ++ [?e])] =>
        destruct (loop_run env t p id shell code cache fuel first ((h ++ [c]) ++ [e]))
          as (m1 & Hloop & Hlen & Hshape);
        exists e, m1; rewrite Hloop, <- !app_assoc; cbn [app];
        split; [reflexivity | split; [| split; [exact Hlen |]]]
    end.
  - now left.
  - destruct (requested m1) as [|r rest]; [exact I |].
    destruct Hshape as [-> Hrest]. split; [eexists; reflexivity | exact Hrest].
  - right. eexists. reflexivity.
  - destruct (requested m1) as [|r rest]; [exact I |].
    destruct Hshape as [-> Hrest]. split; [eexists; reflexivity | exact Hrest].
Qed.

Lemma fresh_chat_keeps_caller_flags_witness :
  exists entry more,
    chat_mode (no_chat true) 2 (Some "list files") T P "abc" true false true []
    = (Looping, [] ++ ChatCacheExists "abc" :: entry :: more)
    /\ (entry = Echo (Some "list files")
        \/ exists a, entry = Prompt "Enter your prompt" true a)
    /\ List.length (requested more) = 2
    /\ match requested more with
       | [] => True
       | r :: rest =>
           (exists text,
              r = user_request (make_prompt_initial (no_chat true) text true false)
                    T P true (Some "abc"))
           /\ Forall (fun r' => exists text,
                        r' = user_request (make_prompt_chat_mode (no_chat true) text true false)
                               T P true (Some "abc")) rest
       end.
Proof.
  exact (fresh_chat_keeps_caller_flags (no_chat true) 2 (Some "list files") T P "abc"
           true false true [] eq_refl).
Defined.

(** ** What a chat runs and what it asks *)

(** X3. A chat whose mode is not shell never calls [os.system], whatever the
    user types and however long it goes on.  The mode is the flag of the
    caller for a chat the cache does not know, and the shell sentinel of the
    first stored message otherwise: a stored plain or code chat entered with
    [--shell] runs nothing either. *)
Theorem non_shell_chat_never_executes env fuel prompt t p id shell code cache h :
  (if stored env h id then
     match stored_messages env (h ++ [ChatCacheExists id]) id with
     | [] => false
     | first :: _ => Py.endswith first SHELL_SENTINEL
     end
   else shell) = false ->
  executed (snd (chat_mode env fuel prompt t p id shell code cache h)) = executed h.
Proof.
  intros Hmode.
  assert (Hsession : forall exists_ c h0,
    executed (snd (chat_mode_session env fuel prompt t p id exists_ false c cache h0))
    = executed h0).
  { intros exists_ c h0.
    destruct (session_keeps env (fun more => executed more = []) fuel prompt t p id
                exists_ false c cache h0) as (more & Hrun & Hnone);
      try reflexivity.
    - intros a b Ha Hb. now rewrite executed_app, Ha, Hb.
    - intros pr h1. by_turn_shape env t p id false c cache pr h1.
      + tally. reflexivity.
      + discriminate.
    - rewrite Hrun. cbn [snd]. now rewrite executed_app, Hnone, app_nil_r. }
  destruct (chat_mode_cases env fuel prompt t p id shell code cache h)
    as [[Hex Hrun] | [(_ & e & Hrun & _) | (Hex & f & r & Hm & _ & Hrun)]];
    rewrite Hrun.
  - rewrite Hex in Hmode. subst shell. rewrite Hsession. tally. reflexivity.
  - unfold resumed. cbn [snd]. tally. reflexivity.
  - rewrite Hex, Hm in Hmode. rewrite Hmode, Hsession. unfold resumed. tally. reflexivity.
Qed.

Lemma non_shell_chat_never_executes_witness :
  executed (snd (chat_mode plain_chat 3 (Some "and now?") T P "abc" true false true []))
  = [].
Proof.
  exact (non_shell_chat_never_executes plain_chat 3 (Some "and now?") T P "abc"
           true false true [] eq_refl).
Defined.

(** X4. A chat never asks the yes/no confirmation of the single-shot path,
    and it runs at most one command for each request it has sent. *)
Theorem chat_mode_runs_unconfirmed env fuel prompt t p id shell code cache h :
  exists o more,
    chat_mode env fuel prompt t p id shell code cache h = (o, h ++ more)
    /\ confirmations more = []
    /\ List.length (executed more) <= List.length (requested more).
Proof.
  apply (chat_mode_keeps env
           (fun more => confirmations more = []
                        /\ List.length (executed more) <= List.length (requested more)));
    try (split; [reflexivity | cbn; lia]).
  - intros a b [Ca La] [Cb Lb]. tally. rewrite Ca, Cb. split; [reflexivity | lia].
  - intros s c pr h0. by_turn_shape env t p id s c cache pr h0;
      tally; (split; [reflexivity | cbn; lia]).
Qed.

(** X6. A chat consults the cache at its start only: [exists] once, then
    [get_messages] once if the chat is known; no turn of the loop reads the
    cache again. *)
Theorem chat_cache_read_once env fuel prompt t p id shell code cache h :
  exists o more,
    chat_mode env fuel prompt t p id shell code cache h = (o, h ++ more)
    /\ filter is_chat_cache more
       = ChatCacheExists id
         :: (if stored env h id then [ChatCacheGetMessages id] else []).
Proof.
  assert (Hsession : forall exists_ s c h0, exists more,
    chat_mode_session env fuel prompt t p id exists_ s c cache h0 = (Looping, h0 ++ more)
    /\ filter is_chat_cache more = []).
  { intros exists_ s c h0.
    apply (session_keeps env (fun more => filter is_chat_cache more = []));
      try reflexivity.
    - intros a b Ha Hb. now rewrite filter_app, Ha, Hb.
    - intros pr h1. by_turn_shape env t p id s c cache pr h1; tally; reflexivity. }
  destruct (chat_mode_cases env fuel prompt t p id shell code cache h)
    as [[Hex Hrun] | [(Hex & e & Hrun & _) | (Hex & f & r & _ & _ & Hrun)]];
    rewrite Hrun, Hex.
  - destruct (Hsession false shell code (h ++ [ChatCacheExists id])) as (more & -> & Hn).
    exists Looping, ([ChatCacheExists id] ++ more). rewrite app_assoc.
    split; [reflexivity |]. tally. now rewrite Hn.
  - exists (Raised e). eexists. unfold resumed. split; [reflexivity |]. tally. reflexivity.
  - destruct (Hsession true (Py.endswith f SHELL_SENTINEL) (Py.endswith f CODE_SENTINEL)
                (resumed id shell code h)) as (more & -> & Hn).
    exists Looping. eexists. unfold resumed. rewrite <- app_assoc.
    split; [reflexivity |]. tally. now rewrite Hn.
Qed.

(** X11. Every turn of a session reads one line, and one more when it runs
    the response; with the line read for a missing prompt, the lines read are
    as many as the requests sent and the commands run together, plus one
    when the session was entered without a prompt. *)
Theorem session_reads_one_line_per_turn
    env fuel prompt t p id exists_ shell code cache h :
  exists more,
    chat_mode_session env fuel prompt t p id exists_ shell code cache h
    = (Looping, h ++ more)
    /\ List.length (filter is_prompt more)
       = List.length (requested more) + List.length (executed more)
         + (if Py.truthy prompt then 0 else 1).
Proof.
  destruct (session_split env
              (fun more => List.length (filter is_prompt more)
                           = List.length (requested more) + List.length (executed more))
              fuel prompt t p id exists_ shell code cache h)
    as (entry & more & Hrun & Hentry & Hcount).
  - reflexivity.
  - intros a b Ha Hb. tally. lia.
  - intros pr h0. by_turn_shape env t p id shell code cache pr h0; tally; reflexivity.
  - exists (entry :: more). split; [exact Hrun |].
    destruct Hentry as [[-> ->] | (-> & a & ->)]; tally; lia.
Qed.

(** X12. In a shell session a command is run once for each answer [execute]
    or [e] given at the choice, and for nothing else; in any other session
    such an answer runs nothing. *)
Theorem commands_run_as_often_as_chosen
    env fuel prompt t p id exists_ shell code cache h :
  exists more,
    chat_mode_session env fuel prompt t p id exists_ shell code cache h
    = (Looping, h ++ more)
    /\ List.length (executed more)
       = if shell then List.length (filter is_execute_choice more) else 0.
Proof.
  apply (session_keeps env
           (fun more => List.length (executed more)
                        = if shell then List.length (filter is_execute_choice more) else 0)).
  - now destruct shell.
  - intros a b Ha Hb. tally. rewrite Ha, Hb. destruct shell; reflexivity.
  - intros pr h0. by_turn_shape env t p id shell code cache pr h0.
    + tally. destruct shell; [| reflexivity].
      cbn [andb] in Hkeep. rewrite Hkeep. reflexivity.
    + subst shell. tally. rewrite Hexec. reflexivity.
  - intros _. now destruct shell.
  - intros _ a. now destruct shell.
Qed.

(** ** The whole of [main] *)

Section Whole.

Variable env : environment.

(** The events of a single-shot run, in order. *)
Lemma single_shot_shape r shell code editor h :
  let h0 := after_editor env editor h in
  exists opened tail,
    single_shot env r shell code editor h
    = h ++ opened ++ sent env r :: map secho_word (reply env h0 r)
        ++ Secho None None false true :: tail
    /\ h0 = h ++ opened
    /\ opened = (if editor then [GetEditedPrompt (edited env h)] else [])
    /\ ((negb code && shell = false /\ tail = [])
        \/ (negb code && shell = true
            /\ (tail = [Confirm "Execute shell command?" false]
                \/ tail = [Confirm "Execute shell command?" true;
                           OsSystem (Py.join (reply env h0 r))]))).
Proof.
  intros h0. exists (if editor then [GetEditedPrompt (edited env h)] else []).
  assert (H0 : h0 = h ++ (if editor then [GetEditedPrompt (edited env h)] else [])).
  { unfold h0, after_editor. destruct editor; [reflexivity | now rewrite app_nil_r]. }
  unfold single_shot, answered. fold h0.
  destruct (negb code && shell).
  - destruct (confirmed env _ _); eexists;
      (split; [rewrite H0 at 1; hnorm; reflexivity |]);
      (split; [exact H0 |]); (split; [reflexivity |]); right; auto.
  - exists []. split; [rewrite H0 at 1; hnorm; reflexivity |].
    split; [exact H0 |]. split; [reflexivity |]. left. auto.
Qed.

End Whole.

(** X8. A single-shot run with a prompt does, in this order: open the editor
    if asked, send one request, write the fragments of the reply and a line
    end, and then, only with [shell] and without [code], ask for the
    confirmation; on a yes the last thing it does is run the reply. *)
Theorem single_shot_trace env fuel prompt t p chat shell code editor cache h :
  Py.truthy chat = false ->
  negb (Py.truthy (edited_prompt env editor prompt h)) && negb editor = false ->
  let h0 := after_editor env editor h in
  let r := user_request
             (make_prompt_initial env (edited_prompt env editor prompt h) shell code)
             t p cache chat in
  exists tail,
    main env fuel prompt t p chat false shell code editor cache h
    = (Returned tt,
       h0 ++ sent env r :: map secho_word (reply env h0 r)
          ++ Secho None None false true :: tail)
    /\ ((negb code && shell = false /\ tail = [])
        \/ (negb code && shell = true
            /\ (tail = [Confirm "Execute shell command?" false]
                \/ tail = [Confirm "Execute shell command?" true;
                           OsSystem (Py.join (reply env h0 r))]))).
Proof.
  intros Hchat Hgiven h0 r.
  rewrite (main_single_shot env fuel prompt t p chat shell code editor cache h Hchat Hgiven).
  fold r.
  destruct (single_shot_shape env r shell code editor h)
    as (opened & tail & Hshape & H0 & _ & Htail).
  exists tail. fold h0 in H0, Htail. split; [| exact Htail].
  rewrite Hshape, app_assoc, <- H0. reflexivity.
Qed.

Lemma single_shot_trace_witness :
  exists tail,
    main (no_chat false) 0 (Some "list files") T P None false true false false true []
    = (Returned tt,
       sent (no_chat false)
         (user_request (framing (Some "list files") true false) T P true None)
       :: secho_word "ls" :: secho_word " -l" :: Secho None None false true :: tail)
    /\ ((false = false /\ tail = [])
        \/ (true = true
            /\ (tail = [Confirm "Execute shell command?" false]
                \/ tail = [Confirm "Execute shell command?" true; OsSystem "ls -l"]))).
Proof.
  destruct (single_shot_trace (no_chat false) 0 (Some "list files") T P None
              true false false true [] eq_refl eq_refl) as (tail & Hrun & Htail).
  exists tail. split; [exact Hrun |].
  destruct Htail as [[Habs _] | [_ Hc]]; [discriminate Habs | right; auto].
Defined.

(** X7. With a chat id, [main] is [chat_mode] run on the prompt the editor
    left: it never returns, so nothing of the single-shot path is reached;
    in particular a missing prompt is asked for and never a usage error. *)
Theorem main_with_chat_is_chat_mode env fuel prompt t p id shell code editor cache h :
  Py.truthy (Some id) = true ->
  main env fuel prompt t p (Some id) false shell code editor cache h
  = chat_mode env fuel (edited_prompt env editor prompt h) t p id shell code cache
      (after_editor env editor h)
  /\ (forall v,
        fst (main env fuel prompt t p (Some id) false shell code editor cache h)
        <> Returned v)
  /\ (forall hint type_,
        fst (main env fuel prompt t p (Some id) false shell code editor cache h)
        <> Raised (MissingParameter hint type_)).
Proof.
  intros Hid. rewrite (main_chat env fuel prompt t p id shell code editor cache h Hid).
  split; [reflexivity |]. split.
  - intros v. apply chat_mode_not_returned.
  - intros hint type_.
    destruct (chat_mode_cases env fuel (edited_prompt env editor prompt h) t p id
                shell code cache (after_editor env editor h))
      as [[_ Hrun] | [(_ & e & Hrun & Hwhy) | (_ & f & r & _ & _ & Hrun)]]; rewrite Hrun.
    + destruct (session_loops env fuel (edited_prompt env editor prompt h) t p id false
                  shell code cache (after_editor env editor h ++ [ChatCacheExists id]))
        as (m & -> & _). discriminate.
    + destruct Hwhy as [[-> _] | (f & r & msg & _ & -> & _)]; discriminate.
    + destruct (session_loops env fuel (edited_prompt env editor prompt h) t p id true
                  (Py.endswith f SHELL_SENTINEL) (Py.endswith f CODE_SENTINEL) cache
                  (resumed id shell code (after_editor env editor h)))
        as (m & -> & _). discriminate.
Qed.

Lemma main_with_chat_is_chat_mode_witness :
  main (no_chat true) 1 None T P (Some "abc") false true false false true []
  = chat_mode (no_chat true) 1 None T P "abc" true false true []
  /\ fst (main (no_chat true) 1 None T P (Some "abc") false true false false true [])
     = Looping.
Proof.
  split.
  - exact (proj1 (main_with_chat_is_chat_mode (no_chat true) 1 None T P "abc"
                    true false false true [] eq_refl)).
  - reflexivity.
Defined.

(** X5. Whatever the arguments, every request [main] sends holds a single
    message of role [user], names the model [gpt-3.5-turbo], and forwards
    the temperature, the top probability, the caching flag and the chat id
    it was given; and every call of the client is made with the host and
    the key of the configuration. *)
Theorem requests_are_uniform
    env fuel prompt t p chat list_chat shell code editor cache h :
  exists o more,
    main env fuel prompt t p chat list_chat shell code editor cache h = (o, h ++ more)
    /\ Forall (fun r => exists content, r = user_request content t p cache chat)
              (requested more)
    /\ filter is_completion more = map (sent env) (requested more).
Proof.
  set (Q := fun more : history =>
              Forall (fun r => exists content, r = user_request content t p cache chat)
                     (requested more)
              /\ filter is_completion more = map (sent env) (requested more)).
  assert (Qopened : Q (if editor then [GetEditedPrompt (edited env h)] else []))
    by (destruct editor; split; cbn; auto).
  assert (Qapp : forall a b, Q a -> Q b -> Q (a ++ b)).
  { intros a b [Fa Ca] [Fb Cb]. split.
    - rewrite requested_app. apply Forall_app. auto.
    - now rewrite filter_app, requested_app, map_app, Ca, Cb. }
  assert (H0 : after_editor env editor h
               = h ++ (if editor then [GetEditedPrompt (edited env h)] else [])).
  { unfold after_editor. destruct editor; [reflexivity | now rewrite app_nil_r]. }
  change (exists o more,
            main env fuel prompt t p chat list_chat shell code editor cache h = (o, h ++ more)
            /\ Q more).
  destruct list_chat.
  - exists (Returned tt), [EchoChatIds]. rewrite main_list_chat.
    split; [reflexivity |]. split; cbn; auto.
  - destruct (Py.truthy chat) eqn:Hchat.
    + destruct chat as [id|]; [| discriminate Hchat].
      rewrite (main_chat env fuel prompt t p id shell code editor cache h Hchat).
      destruct (chat_mode_keeps env Q fuel (edited_prompt env editor prompt h) t p id
                  shell code cache (after_editor env editor h))
        as (o & more & Hrun & Qmore);
        try (split; cbn; auto; fail); [exact Qapp | |].
      * intros s c pr h0. by_turn_shape env t p id s c cache pr h0;
          (split; tally; [repeat constructor; eexists; reflexivity | reflexivity]).
      * exists o. eexists. rewrite Hrun, H0, <- app_assoc. split; [reflexivity |].
        apply Qapp; assumption.
    + destruct (negb (Py.truthy (edited_prompt env editor prompt h)) && negb editor) eqn:Hp.
      * rewrite (main_missing env fuel prompt t p chat shell code editor cache h Hchat Hp).
        eexists. eexists. rewrite H0. split; [reflexivity | exact Qopened].
      * rewrite (main_single_shot env fuel prompt t p chat shell code editor cache h
                   Hchat Hp).
        set (r := user_request _ t p cache chat).
        destruct (single_shot_shape env r shell code editor h)
          as (opened & tail & Hshape & _ & -> & Htail).
        eexists. eexists. rewrite Hshape. split; [reflexivity |].
        apply Qapp; [exact Qopened |].
        destruct Htail as [[_ ->] | [_ [-> | ->]]];
          (split; tally; [repeat constructor; eexists; reflexivity | reflexivity]).
Qed.

(** X9. With [--editor] the prompt given on the command line has no
    influence on the run, and unless [--list-chat] is given the editor is
    opened before anything else is done. *)
Theorem editor_replaces_prompt env fuel prompt prompt' t p chat list_chat shell code cache h :
  main env fuel prompt t p chat list_chat shell code true cache h
  = main env fuel prompt' t p chat list_chat shell code true cache h
  /\ exists o more,
       main env fuel prompt t p chat false shell code true cache h
       = (o, h ++ GetEditedPrompt (edited env h) :: more).
Proof.
  split.
  - unfold main. destruct list_chat; reflexivity.
  - destruct (Py.truthy chat) eqn:Hchat.
    + destruct chat as [id|]; [| discriminate Hchat].
      rewrite (main_chat env fuel prompt t p id shell code true cache h Hchat).
      destruct (chat_mode_keeps env (fun _ => True) fuel (edited_prompt env true prompt h)
                  t p id shell code cache (after_editor env true h))
        as (o & more & Hrun & _); auto.
      * intros s c pr h0. by_turn_shape env t p id s c cache pr h0; exact I.
      * exists o, more. rewrite Hrun. unfold after_editor. rewrite <- app_assoc.
        reflexivity.
    + rewrite (main_single_shot env fuel prompt t p chat shell code true cache h Hchat
                 (andb_false_r _)).
      set (r := user_request _ t p cache chat).
      destruct (single_shot_shape env r shell code true h)
        as (opened & tail & Hshape & _ & -> & _).
      eexists. eexists. rewrite Hshape. cbn [app]. reflexivity.
Qed.

(** X10. The exit status.  Without a chat id, or with [--list-chat], the
    program exits with 0, except with 2 when it was given neither a prompt
    nor [--editor] (and no [--list-chat]).  With a chat id and without
    [--list-chat] it never exits with 0: it is still running, or it exits
    with 1 (no stored message) or 2 (conflicting flag). *)
Theorem exit_status_of_run
    env fuel prompt t p chat list_chat shell code editor cache h :
  (Py.truthy chat = false \/ list_chat = true ->
   fst (entry_point env fuel prompt t p chat list_chat shell code editor cache h)
   = Some (if negb list_chat && (negb (Py.truthy prompt) && negb editor)
           then 2 else 0)%Z)
  /\ (Py.truthy chat = true -> list_chat = false ->
      let status :=
        fst (entry_point env fuel prompt t p chat list_chat shell code editor cache h) in
      status = None \/ status = Some 1%Z \/ status = Some 2%Z).
Proof.
  split.
  - intros Hwhy. unfold entry_point. destruct list_chat.
    + rewrite main_list_chat. reflexivity.
    + destruct Hwhy as [Hchat | Habs]; [| discriminate Habs].
      assert (Hsame : negb (Py.truthy (edited_prompt env editor prompt h)) && negb editor
                      = negb (Py.truthy prompt) && negb editor).
      { unfold edited_prompt. destruct editor; [now rewrite !andb_false_r | reflexivity]. }
      cbn [negb andb].
      destruct (negb (Py.truthy prompt) && negb editor) eqn:Hp.
      * rewrite (main_missing env fuel prompt t p chat shell code editor cache h Hchat);
          [reflexivity | now rewrite Hsame].
      * rewrite (main_single_shot env fuel prompt t p chat shell code editor cache h Hchat);
          [reflexivity | now rewrite Hsame].
  - intros Hchat -> status. subst status. unfold entry_point.
    destruct chat as [id|]; [| discriminate Hchat].
    rewrite (main_chat env fuel prompt t p id shell code editor cache h Hchat).
    destruct (chat_mode_cases env fuel (edited_prompt env editor prompt h) t p id
                shell code cache (after_editor env editor h))
      as [[_ Hrun] | [(_ & e & Hrun & Hwhy) | (_ & f & r & _ & _ & Hrun)]]; rewrite Hrun.
    + destruct (session_loops env fuel (edited_prompt env editor prompt h) t p id false
                  shell code cache (after_editor env editor h ++ [ChatCacheExists id]))
        as (m & -> & _). now left.
    + destruct Hwhy as [[-> _] | (f & r & msg & _ & -> & _)]; cbn; auto.
    + destruct (session_loops env fuel (edited_prompt env editor prompt h) t p id true
                  (Py.endswith f SHELL_SENTINEL) (Py.endswith f CODE_SENTINEL) cache
                  (resumed id shell code (after_editor env editor h)))
        as (m & -> & _). now left.
Qed.

Lemma exit_status_of_run_witness :
  fst (entry_point (no_chat true) 0 (Some "list files") T P None false true false false
         true []) = Some 0%Z
  /\ fst (entry_point empty_chat 1 (Some "hello") T P (Some "abc") false false false false
            true []) = Some 1%Z.
Proof.
  split.
  - exact (proj1 (exit_status_of_run (no_chat true) 0 (Some "list files") T P None
                    false true false false true []) (or_introl eq_refl)).
  - destruct (proj2 (exit_status_of_run empty_chat 1 (Some "hello") T P (Some "abc")
                       false false false false true []) eq_refl eq_refl)
      as [H | [H | H]]; [discriminate H | exact H | discriminate H].
Defined.


(** ** What reaches the session store *)








Section Persisting.

Variable env : environment.


End Persisting.

(** ** Streaming *)


